(** * pypi-attestations: the PEP 740 attestation / Sigstore bundle converter

    A shallow embedding of [pkg/convert/convert.go].  The converter is glue
    between Go libraries (crypto/x509, encoding/json, encoding/base64,
    protojson, structpb and sigstore-go's bundle package).  Those libraries
    are an interface here ([LibTypes], [LibOps]); the functions of the
    package are written over that interface, statement by statement, and a
    small executable reference implementation of the interface is given at
    the end so that every statement can be run on concrete input. *)

From Stdlib Require Import ZArith Ascii String List Lia DecimalString.
From stdpp Require Import base option list gmap strings.

Open Scope string_scope.
Open Scope Z_scope.

(** Go's [[]byte]. A nil slice and an empty slice are both [[]]: the package
    only reads byte slices through [len], [bytes.Equal] and the encoders. *)
Abbreviation bytes := (list Byte.byte).

(** ** Outcomes of Go calls *)

(** What a library call of type [(T, error)] returns. *)
Inductive result (A : Type) : Type :=
  | Value (a : A)
  | Error (msg : string).
Arguments Value {A} a.
Arguments Error {A} msg.

(** What a call of a function of this package does: it returns a value,
    returns an error, or dereferences a nil pointer (a run-time panic). *)
Inductive outcome (A : Type) : Type :=
  | Ok (a : A)
  | Err (msg : string)
  | Panic.
Arguments Ok {A} a.
Arguments Err {A} msg.
Arguments Panic {A}.

#[global] Instance outcome_ret : MRet outcome := fun A a => Ok a.
#[global] Instance outcome_bind : MBind outcome := fun A B k m =>
  match m with
  | Ok a => k a
  | Err e => Err e
  | Panic => Panic
  end.

(** [x, err := f(...); if err != nil { return nil, fmt.Errorf(ctx + "%w", err) }] *)
Definition wrap {A : Type} (ctx : string) (r : result A) : outcome A :=
  match r with
  | Value a => Ok a
  | Error e => Err (ctx ++ e)
  end.

(** [return f(...)]: value and error are passed on unchanged. *)
Definition lift {A : Type} (r : result A) : outcome A := wrap EmptyString r.

(** [p.Field] on a pointer [p]: a nil pointer panics. *)
Definition deref {A : Type} (p : option A) : outcome A :=
  match p with
  | Some a => Ok a
  | None => Panic
  end.

(** [if !c { return nil, fmt.Errorf(e) }] *)
Definition require (c : bool) (e : string) : outcome unit :=
  if c then Ok tt else Err e.

(** [%d] of an integer. *)
Definition fmt_d (z : Z) : string := NilZero.string_of_int (Z.to_int z).

(** [uint32] values are integers in [0, 2^32). *)
Definition uint32_range (z : Z) : Prop := 0 <= z < 2 ^ 32.

(** ** Go's [interface{}]

    The dynamic types that occur in the package: what [json.Unmarshal]
    stores into an [interface{}] (nil, bool, float64, string,
    [[]interface{}], [map[string]interface{}]) and what [MarshalAttestation]
    puts into its map (uint32, string, nested map, [[]*structpb.Struct]). *)
#[warnings="-register-all"]
Inductive any (F S : Type) : Type :=
  | ANil
  | ABool (b : bool)
  | AFloat64 (f : F)
  | AString (s : string)
  | ASlice (l : list (any F S))
  | AMap (m : gmap string (any F S))
  | AUint32 (n : Z)
  | AStructs (l : list S).
Arguments ANil {F S}.
Arguments ABool {F S} b.
Arguments AFloat64 {F S} f.
Arguments AString {F S} s.
Arguments ASlice {F S} l.
Arguments AMap {F S} m.
Arguments AUint32 {F S} n.
Arguments AStructs {F S} l.

(** ** Types owned by the libraries *)

Class LibTypes : Type := {
  (** Go's float64, the type of every JSON number after [json.Unmarshal] *)
  float64 : Type;
  (** [*structpb.Struct], the generic structured value (nil included) *)
  Struct : Type;
  (** [*protorekor.TransparencyLogEntry], the typed record (nil included) *)
  TransparencyLogEntry : Type;
  (** [*x509.Certificate] as returned by [x509.ParseCertificate] *)
  x509_Certificate : Type;
}.

Section DataModel.
Context `{LT : LibTypes}.

(** *** proto/attestation (package pb) *)

Record pb_VerificationMaterial : Type := {
  Certificate : bytes;
  TransparencyEntries : list Struct;
}.

Record pb_Envelope : Type := {
  Statement : bytes;
  Signature : bytes;
}.

Record pb_Attestation : Type := {
  Version : Z;
  VerificationMaterial : option pb_VerificationMaterial;
  Envelope : option pb_Envelope;
}.

(** *** protobuf-specs: common, dsse, bundle *)

Record protocommon_X509Certificate : Type := {
  RawBytes : bytes;
}.

Record protocommon_X509CertificateChain : Type := {
  Certificates : list (option protocommon_X509Certificate);
}.

Record protodsse_Signature : Type := {
  Sig : bytes;
  Keyid : string;
}.

Record protodsse_Envelope : Type := {
  Payload : bytes;
  PayloadType : string;
  Signatures : list (option protodsse_Signature);
}.

(** The oneof [VerificationMaterial.Content]; [VMContent_unset] is the nil
    interface value. *)
Inductive isVerificationMaterial_Content : Type :=
  | VMContent_unset
  | VerificationMaterial_PublicKey (hint : string)
  | VerificationMaterial_X509CertificateChain
      (X509CertificateChain : option protocommon_X509CertificateChain)
  | VerificationMaterial_Certificate
      (Certificate : option protocommon_X509Certificate).

Record protobundle_VerificationMaterial : Type := {
  vm_Content : isVerificationMaterial_Content;
  TlogEntries : list TransparencyLogEntry;
}.

(** The oneof [Bundle.Content]. *)
Inductive isBundle_Content : Type :=
  | Content_unset
  | Bundle_MessageSignature (signature : bytes)
  | Bundle_DsseEnvelope (DsseEnvelope : option protodsse_Envelope).

Record protobundle_Bundle : Type := {
  MediaType : string;
  bundle_VerificationMaterial : option protobundle_VerificationMaterial;
  Content : isBundle_Content;
}.

(** *** sigstore-go: [bundle.Bundle] embeds [*protobundle.Bundle] *)

Record bundle_Bundle : Type := {
  Bundle : option protobundle_Bundle;
  hasInclusionPromise : bool;
  hasInclusionProof : bool;
}.

End DataModel.

(** ** Operations owned by the libraries *)

Class LibOps `{LT : LibTypes} : Type := {
  (** the conversion [uint32(v)] of a float64 *)
  uint32_of_float64 : float64 -> Z;
  (** crypto/x509 *)
  x509_ParseCertificate : bytes -> result x509_Certificate;
  Raw : x509_Certificate -> bytes;
  (** encoding/base64, [StdEncoding] *)
  base64_EncodeToString : bytes -> string;
  base64_DecodeString : string -> result bytes;
  (** encoding/json: [json.Unmarshal(data, &m)] for
      [m map[string]interface{}], and [json.MarshalIndent] with an empty
      prefix and a two-space indent *)
  json_Unmarshal : bytes -> result (gmap string (any float64 Struct));
  json_MarshalIndent : any float64 Struct -> result bytes;
  (** structpb *)
  structpb_NewStruct : gmap string (any float64 Struct) -> result Struct;
  (** protojson, at the three message types the package uses *)
  protojson_Marshal_Struct : Struct -> result bytes;
  protojson_Marshal_TransparencyLogEntry : TransparencyLogEntry -> result bytes;
  protojson_Unmarshal_TransparencyLogEntry : bytes -> result TransparencyLogEntry;
  protojson_MarshalIndent_Bundle : protobundle_Bundle -> result bytes;
  protojson_Unmarshal_Bundle : bytes -> result protobundle_Bundle;
  (** sigstore-go: the [validate] method of [Bundle], which also computes
      the two flags *)
  bundle_validate : protobundle_Bundle -> result (bool * bool);
}.

Section Convert.
Context `{LO : LibOps}.

Abbreviation iface := (any float64 Struct).

(** [fmt.Errorf(ctx + "%w", err)] around a call of this package. *)
Definition annotate {A : Type} (ctx : string) (o : outcome A) : outcome A :=
  match o with
  | Ok a => Ok a
  | Err e => Err (ctx ++ e)
  | Panic => Panic
  end.

(** sigstore-go's [bundle.NewBundle]: wrap the message, then validate. *)
Definition bundle_NewBundle (pbundle : protobundle_Bundle) : result bundle_Bundle :=
  match bundle_validate pbundle with
  | Error e => Error e
  | Value (promise, proof) =>
      Value {| Bundle := Some pbundle;
               hasInclusionPromise := promise;
               hasInclusionProof := proof |}
  end.

(** *** transparencyEntryToStruct (convert.go, 132-152) *)
Definition transparencyEntryToStruct (entry : TransparencyLogEntry) : outcome Struct :=
  jsonBytes ← wrap "failed to marshal transparency entry to JSON: "
                (protojson_Marshal_TransparencyLogEntry entry);
  m ← wrap "failed to unmarshal JSON to map: " (json_Unmarshal jsonBytes);
  s ← wrap "failed to create structpb.Struct: " (structpb_NewStruct m);
  Ok s.

(** *** transparencyEntryFromStruct (convert.go, 155-169) *)
Definition transparencyEntryFromStruct (s : Struct) : outcome TransparencyLogEntry :=
  jsonBytes ← wrap "failed to marshal struct to JSON: " (protojson_Marshal_Struct s);
  entry ← wrap "failed to unmarshal JSON to TransparencyLogEntry: "
            (protojson_Unmarshal_TransparencyLogEntry jsonBytes);
  Ok entry.

(** The bundle message assembled at lines 36-70. *)
Definition assembleBundle (cert : x509_Certificate) (env : pb_Envelope)
    (tlogEntry : TransparencyLogEntry) : protobundle_Bundle :=
  let envelope :=
    {| Payload := Statement env;
       PayloadType := "application/vnd.in-toto+json";
       Signatures := [Some {| Sig := Signature env; Keyid := EmptyString |}] |} in
  {| MediaType := "application/vnd.dev.sigstore.bundle.v0.3+json";
     bundle_VerificationMaterial := Some
       {| vm_Content := VerificationMaterial_Certificate
                          (Some {| RawBytes := Raw cert |});
          TlogEntries := [tlogEntry] |};
     Content := Bundle_DsseEnvelope (Some envelope) |}.

(** *** ToBundle (convert.go, 20-74) *)
Definition ToBundle (attestation : option pb_Attestation) : outcome bundle_Bundle :=
  match attestation with
  | None => Err "attestation cannot be nil"
  | Some att =>
      _ ← require (Version att =? 1)
            ("unsupported attestation version: " ++ fmt_d (Version att));
      vm ← deref (VerificationMaterial att);
      cert ← wrap "failed to parse certificate: "
               (x509_ParseCertificate (Certificate vm));
      env ← deref (Envelope att);
      match TransparencyEntries vm with
      | [] => Err "no transparency entries found"
      | entry0 :: _ =>
          tlogEntry ← annotate "failed to convert transparency entry: "
                        (transparencyEntryFromStruct entry0);
          lift (bundle_NewBundle (assembleBundle cert env tlogEntry))
      end
  end.

(** Lines 83-94: the switch on the certificate oneof. *)
Definition extractCertificate (content : isVerificationMaterial_Content) : outcome bytes :=
  match content with
  | VerificationMaterial_Certificate c =>
      c ← deref c; Ok (RawBytes c)
  | VerificationMaterial_X509CertificateChain chain =>
      chain ← deref chain;
      match Certificates chain with
      | [] => Err "no certificates in chain"
      | c0 :: _ => c0 ← deref c0; Ok (RawBytes c0)
      end
  | _ => Err "unsupported certificate type"
  end.

(** Lines 107-114: the loop over the bundle's tlog entries, from index [i]. *)
Fixpoint convertEntries (i : nat) (entries : list TransparencyLogEntry)
  : outcome (list Struct) :=
  match entries with
  | [] => Ok []
  | entry :: rest =>
      s ← annotate ("failed to convert transparency entry "
                      ++ fmt_d (Z.of_nat i) ++ ": ")
            (transparencyEntryToStruct entry);
      ss ← convertEntries (S i) rest;
      Ok (s :: ss)
  end.

(** *** FromBundle (convert.go, 77-129) *)
Definition FromBundle (b : option bundle_Bundle) : outcome pb_Attestation :=
  match b ≫= Bundle with
  | None => Err "bundle cannot be nil"
  | Some pbundle =>
      vm ← deref (bundle_VerificationMaterial pbundle);
      certBytes ← extractCertificate (vm_Content vm);
      match Content pbundle with
      | Bundle_DsseEnvelope dsseEnvelope =>
          dsseEnvelope ← deref dsseEnvelope;
          _ ← require (length (Signatures dsseEnvelope) =? 1)%nat
                ("expected exactly one signature, got "
                   ++ fmt_d (Z.of_nat (length (Signatures dsseEnvelope))));
          tlogEntries ← convertEntries 0 (TlogEntries vm);
          sig0 ← deref (mjoin (head (Signatures dsseEnvelope)));
          Ok {| Version := 1;
                VerificationMaterial := Some
                  {| Certificate := certBytes;
                     TransparencyEntries := tlogEntries |};
                Envelope := Some
                  {| Statement := Payload dsseEnvelope;
                     Signature := Sig sig0 |} |}
      | _ => Err "bundle does not contain a DSSE envelope"
      end
  end.

(** *** MarshalBundle (convert.go, 172-181) *)
Definition MarshalBundle (b : option bundle_Bundle) : outcome bytes :=
  match b ≫= Bundle with
  | None => Err "bundle cannot be nil"
  | Some pbundle => lift (protojson_MarshalIndent_Bundle pbundle)
  end.

(** *** UnmarshalBundle (convert.go, 184-191) *)
Definition UnmarshalBundle (data : bytes) : outcome bundle_Bundle :=
  pbBundle ← wrap "failed to unmarshal bundle JSON: " (protojson_Unmarshal_Bundle data);
  lift (bundle_NewBundle pbBundle).

(** The map literal of lines 196-206, inner maps first. *)
Definition materialMap (vm : pb_VerificationMaterial) : gmap string iface :=
  <["certificate" := AString (base64_EncodeToString (Certificate vm))]>
  (<["transparency_entries" := AStructs (TransparencyEntries vm)]> ∅).

Definition envelopeMap (env : pb_Envelope) : gmap string iface :=
  <["statement" := AString (base64_EncodeToString (Statement env))]>
  (<["signature" := AString (base64_EncodeToString (Signature env))]> ∅).

Definition attestationMap (version : Z) (vm : pb_VerificationMaterial)
    (env : pb_Envelope) : gmap string iface :=
  <["version" := AUint32 version]>
  (<["verification_material" := AMap (materialMap vm)]>
  (<["envelope" := AMap (envelopeMap env)]> ∅)).

(** *** MarshalAttestation (convert.go, 194-209) *)
Definition MarshalAttestation (attestation : option pb_Attestation) : outcome bytes :=
  att ← deref attestation;
  vm ← deref (VerificationMaterial att);
  env ← deref (Envelope att);
  lift (json_MarshalIndent (AMap (attestationMap (Version att) vm env))).

(** Assignments through the two pointers of an attestation. *)
Definition update_VerificationMaterial
    (f : pb_VerificationMaterial -> pb_VerificationMaterial)
    (attestation : pb_Attestation) : outcome pb_Attestation :=
  vm ← deref (VerificationMaterial attestation);
  Ok {| Version := Version attestation;
        VerificationMaterial := Some (f vm);
        Envelope := Envelope attestation |}.

Definition update_Envelope (f : pb_Envelope -> pb_Envelope)
    (attestation : pb_Attestation) : outcome pb_Attestation :=
  env ← deref (Envelope attestation);
  Ok {| Version := Version attestation;
        VerificationMaterial := VerificationMaterial attestation;
        Envelope := Some (f env) |}.

Definition set_Version (v : Z) (attestation : pb_Attestation) : pb_Attestation :=
  {| Version := v;
     VerificationMaterial := VerificationMaterial attestation;
     Envelope := Envelope attestation |}.

Definition set_Certificate (cert : bytes) (vm : pb_VerificationMaterial) :=
  {| Certificate := cert; TransparencyEntries := TransparencyEntries vm |}.

Definition append_TransparencyEntry (s : Struct) (vm : pb_VerificationMaterial) :=
  {| Certificate := Certificate vm;
     TransparencyEntries := TransparencyEntries vm ++ [s] |}.

Definition set_Statement (stmt : bytes) (env : pb_Envelope) :=
  {| Statement := stmt; Signature := Signature env |}.

Definition set_Signature (sig : bytes) (env : pb_Envelope) :=
  {| Statement := Statement env; Signature := sig |}.

(** Lines 239-250: the loop over the [transparency_entries] array. *)
Fixpoint appendEntries (entries : list iface) (attestation : pb_Attestation)
  : outcome pb_Attestation :=
  match entries with
  | [] => Ok attestation
  | entry :: rest =>
      match entry with
      | AMap entryMap =>
          s ← wrap "failed to create transparency entry struct: "
                (structpb_NewStruct entryMap);
          attestation ← update_VerificationMaterial (append_TransparencyEntry s) attestation;
          appendEntries rest attestation
      | _ => appendEntries rest attestation
      end
  end.

(** Lines 230-236: the [certificate] field. *)
Definition parseCertificate (vm : gmap string iface)
    (attestation : pb_Attestation) : outcome pb_Attestation :=
  match vm !! "certificate" with
  | Some (AString certStr) =>
      cert ← wrap "failed to decode certificate: " (base64_DecodeString certStr);
      update_VerificationMaterial (set_Certificate cert) attestation
  | _ => Ok attestation
  end.

(** Lines 238-251: the [transparency_entries] field. *)
Definition parseTransparencyEntries (vm : gmap string iface)
    (attestation : pb_Attestation) : outcome pb_Attestation :=
  match vm !! "transparency_entries" with
  | Some (ASlice entries) => appendEntries entries attestation
  | _ => Ok attestation
  end.

(** Lines 229-252: the [verification_material] block. *)
Definition parseVerificationMaterial (raw : gmap string iface)
    (attestation : pb_Attestation) : outcome pb_Attestation :=
  match raw !! "verification_material" with
  | Some (AMap vm) =>
      attestation ← parseCertificate vm attestation;
      parseTransparencyEntries vm attestation
  | _ => Ok attestation
  end.

(** Lines 256-262: the [statement] field. *)
Definition parseStatement (env : gmap string iface)
    (attestation : pb_Attestation) : outcome pb_Attestation :=
  match env !! "statement" with
  | Some (AString stmtStr) =>
      stmt ← wrap "failed to decode statement: " (base64_DecodeString stmtStr);
      update_Envelope (set_Statement stmt) attestation
  | _ => Ok attestation
  end.

(** Lines 264-270: the [signature] field. *)
Definition parseSignature (env : gmap string iface)
    (attestation : pb_Attestation) : outcome pb_Attestation :=
  match env !! "signature" with
  | Some (AString sigStr) =>
      sig ← wrap "failed to decode signature: " (base64_DecodeString sigStr);
      update_Envelope (set_Signature sig) attestation
  | _ => Ok attestation
  end.

(** Lines 255-271: the [envelope] block. *)
Definition parseEnvelope (raw : gmap string iface)
    (attestation : pb_Attestation) : outcome pb_Attestation :=
  match raw !! "envelope" with
  | Some (AMap env) =>
      attestation ← parseStatement env attestation;
      parseSignature env attestation
  | _ => Ok attestation
  end.

(** Lines 218-226: the fresh attestation and the [version] field. *)
Definition emptyAttestation : pb_Attestation :=
  {| Version := 0;
     VerificationMaterial := Some {| Certificate := []; TransparencyEntries := [] |};
     Envelope := Some {| Statement := []; Signature := [] |} |}.

Definition parseVersion (raw : gmap string iface)
    (attestation : pb_Attestation) : pb_Attestation :=
  match raw !! "version" with
  | Some (AFloat64 v) => set_Version (uint32_of_float64 v) attestation
  | _ => attestation
  end.

(** Everything after the call of [json.Unmarshal]. *)
Definition attestationOfRaw (raw : gmap string iface) : outcome pb_Attestation :=
  let attestation := parseVersion raw emptyAttestation in
  attestation ← parseVerificationMaterial raw attestation;
  attestation ← parseEnvelope raw attestation;
  Ok attestation.

(** *** UnmarshalAttestation (convert.go, 212-274) *)
Definition UnmarshalAttestation (data : bytes) : outcome pb_Attestation :=
  raw ← wrap "failed to unmarshal JSON: " (json_Unmarshal data);
  attestationOfRaw raw.

(** ** Notions used to state the properties *)

(** [FromBundle(ToBundle(a))], with the error of either step passed on. *)
Definition roundTrip (attestation : option pb_Attestation) : outcome pb_Attestation :=
  b ← ToBundle attestation; FromBundle (Some b).


(** The JSON-normalized form of a structured value, as the round-trip test
    of the package computes it: [protojson.Marshal], then [json.Unmarshal]
    into a map, whose comparison ignores the order of keys. *)
Definition normalized (s : Struct) : result (gmap string iface) :=
  match protojson_Marshal_Struct s with
  | Value jsonBytes => json_Unmarshal jsonBytes
  | Error e => Error e
  end.

Definition json_equal (s s' : Struct) : Prop :=
  ∃ m, normalized s = Value m ∧ normalized s' = Value m.

(** The JSON projection of a typed record, as a map. *)
Definition projection (t : TransparencyLogEntry) : result (gmap string iface) :=
  match protojson_Marshal_TransparencyLogEntry t with
  | Value jsonBytes => json_Unmarshal jsonBytes
  | Error e => Error e
  end.

(** The type assertion [entry.(map[string]interface{})]. *)
Definition is_object (v : iface) : bool :=
  match v with
  | AMap _ => true
  | _ => false
  end.


(** [x509.ParseCertificate] rejects trailing data, so the [Raw] field of a
    parsed certificate is the whole input. *)
Definition x509_raw_is_input : Prop :=
  ∀ der cert, x509_ParseCertificate der = Value cert → Raw cert = der.


(** The fields [c.VerificationMaterial.Certificate] and so on of an
    attestation whose blocks may be nil. *)
Definition certificateOf (a : pb_Attestation) : option bytes :=
  Certificate <$> VerificationMaterial a.
Definition entriesOf (a : pb_Attestation) : option (list Struct) :=
  TransparencyEntries <$> VerificationMaterial a.
Definition statementOf (a : pb_Attestation) : option bytes :=
  Statement <$> Envelope a.
Definition signatureOf (a : pb_Attestation) : option bytes :=
  Signature <$> Envelope a.

(** Both blocks of an attestation are non-nil. *)
Definition hasBlocks (a : pb_Attestation) : Prop :=
  is_Some (VerificationMaterial a) ∧ is_Some (Envelope a).

(** The outcome of a step of UnmarshalAttestation on an attestation with
    both blocks: no panic, and both blocks afterwards. *)
Definition keepsBlocks (o : outcome pb_Attestation) : Prop :=
  match o with
  | Ok a => hasBlocks a
  | Err _ => True
  | Panic => False
  end.

(** The five errors of UnmarshalAttestation (lines 215, 233, 243, 259 and
    267), each with its cause in the input: the text did not parse; or the
    parsed object has, in its [verification_material] object, a
    [certificate] string that base64 refuses or an object in the
    [transparency_entries] array that structpb refuses; or it has, in its
    [envelope] object, a [statement] or [signature] string that base64
    refuses.  The message ends with the error [e] of the library. *)
Definition decodeFailure (data : bytes) (msg : string) : Prop :=
  (∃ e, json_Unmarshal data = Error e
        ∧ msg = "failed to unmarshal JSON: " ++ e)
  ∨ ∃ raw, json_Unmarshal data = Value raw
    ∧ ((∃ vm certStr e,
          raw !! "verification_material" = Some (AMap vm)
          ∧ vm !! "certificate" = Some (AString certStr)
          ∧ base64_DecodeString certStr = Error e
          ∧ msg = "failed to decode certificate: " ++ e)
       ∨ (∃ vm entries entryMap e,
          raw !! "verification_material" = Some (AMap vm)
          ∧ vm !! "transparency_entries" = Some (ASlice entries)
          ∧ AMap entryMap ∈ entries
          ∧ structpb_NewStruct entryMap = Error e
          ∧ msg = "failed to create transparency entry struct: " ++ e)
       ∨ (∃ env stmtStr e,
          raw !! "envelope" = Some (AMap env)
          ∧ env !! "statement" = Some (AString stmtStr)
          ∧ base64_DecodeString stmtStr = Error e
          ∧ msg = "failed to decode statement: " ++ e)
       ∨ (∃ env sigStr e,
          raw !! "envelope" = Some (AMap env)
          ∧ env !! "signature" = Some (AString sigStr)
          ∧ base64_DecodeString sigStr = Error e
          ∧ msg = "failed to decode signature: " ++ e)).

End Convert.

(** * A reference implementation of the library interface

    Small executable stand-ins for the Go libraries, so that the functions
    above run on concrete input.  They follow the libraries on the inputs
    used below; where they are narrower than the libraries they refuse the
    input instead of answering differently:
    - JSON numbers are integers (text with a fraction or an exponent is
      refused, and so is an integer that float64 does not hold exactly),
      and string literals have the simple escapes only;
    - an X.509 certificate is read down to the elements of the
      to-be-signed part, with the checks and messages of crypto/x509 on
      tags and lengths; algorithm identifiers, names, validity, key and
      extensions are not decoded;
    - the typed transparency-log record has the fields of the Rekor schema;
      sigstore-go's validation is followed up to the point where it decodes
      the canonicalized body, which is not modelled. *)

Module Ref.

Definition rbind {A B : Type} (r : result A) (k : A -> result B) : result B :=
  match r with
  | Value a => k a
  | Error e => Error e
  end.

(** ** JSON text *)

#[warnings="-register-all"]
Inductive json : Type :=
  | JNull
  | JBool (b : bool)
  | JNum (z : Z)
  | JStr (s : string)
  | JArr (l : list json)
  | JObj (kvs : list (string * json)).

Definition dquote : ascii := ascii_of_nat 34.
Definition backslash : ascii := ascii_of_nat 92.
Definition newline : ascii := ascii_of_nat 10.
Definition str1 (c : ascii) : string := String c EmptyString.

Fixpoint escape (s : string) : string :=
  match s with
  | EmptyString => EmptyString
  | String c rest =>
      if Ascii.eqb c dquote then String backslash (String dquote (escape rest))
      else if Ascii.eqb c backslash then String backslash (String backslash (escape rest))
      else if Ascii.eqb c newline then String backslash (String "n" (escape rest))
      else String c (escape rest)
  end.

Definition quote (s : string) : string := str1 dquote ++ escape s ++ str1 dquote.

Fixpoint spaces (n : nat) : string :=
  match n with O => EmptyString | S n => "  " ++ spaces n end.

Definition join (sep : string) (l : list string) : string :=
  match l with
  | [] => EmptyString
  | x :: xs => fold_left (fun acc y => acc ++ sep ++ y) xs x
  end.

(** [print pretty depth j]: compact text, or multi-line text with a
    two-space indent. *)
Fixpoint print (pretty : bool) (depth : nat) (j : json) : string :=
  let nl d := if pretty then str1 newline ++ spaces d else EmptyString in
  let colon := if pretty then ": " else ":" in
  match j with
  | JNull => "null"
  | JBool true => "true"
  | JBool false => "false"
  | JNum z => fmt_d z
  | JStr s => quote s
  | JArr [] => "[]"
  | JArr l =>
      "[" ++ nl (S depth)
          ++ join ("," ++ nl (S depth)) (map (print pretty (S depth)) l)
          ++ nl depth ++ "]"
  | JObj [] => "{}"
  | JObj kvs =>
      "{" ++ nl (S depth)
          ++ join ("," ++ nl (S depth))
               (map (fun kv => match kv with
                               | (k, v) => quote k ++ colon ++ print pretty (S depth) v
                               end) kvs)
          ++ nl depth ++ "}"
  end.

Definition is_ws (c : ascii) : bool :=
  Ascii.eqb c " " || Ascii.eqb c newline
  || Ascii.eqb c (ascii_of_nat 9) || Ascii.eqb c (ascii_of_nat 13).

Fixpoint skip_ws (s : string) : string :=
  match s with
  | String c rest => if is_ws c then skip_ws rest else s
  | EmptyString => s
  end.

(** The body of a string literal, after its opening quote. *)
Fixpoint parse_string (s : string) : option (string * string) :=
  match s with
  | EmptyString => None
  | String c rest =>
      if Ascii.eqb c dquote then Some (EmptyString, rest)
      else if Ascii.eqb c backslash then
        match rest with
        | String e rest' =>
            c' ← (if Ascii.eqb e "n" then Some newline
                  else if Ascii.eqb e "t" then Some (ascii_of_nat 9)
                  else if Ascii.eqb e "r" then Some (ascii_of_nat 13)
                  else if Ascii.eqb e dquote || Ascii.eqb e backslash || Ascii.eqb e "/"
                       then Some e
                  else None);
            '(str, rest'') ← parse_string rest';
            Some (String c' str, rest'')
        | EmptyString => None
        end
      else if (nat_of_ascii c <? 32)%nat then None
      else '(str, rest') ← parse_string rest; Some (String c str, rest')
  end.

Definition digit_of (c : ascii) : option Z :=
  let n := nat_of_ascii c in
  if ((48 <=? n) && (n <=? 57))%nat then Some (Z.of_nat n - 48) else None.

Fixpoint parse_digits (acc : Z) (s : string) : Z * string :=
  match s with
  | String c rest =>
      match digit_of c with
      | Some d => parse_digits (10 * acc + d) rest
      | None => (acc, s)
      end
  | EmptyString => (acc, s)
  end.

(** An integer literal in JSON's grammar: an optional minus sign, then a
    single zero or digits that do not start with zero. *)
Definition parse_number (s : string) : option (Z * string) :=
  let '(neg, s') :=
    match s with
    | String "-" rest => (true, rest)
    | _ => (false, s)
    end in
  match s' with
  | String "0" rest => Some (0, rest)
  | String c _ =>
      _ ← digit_of c;
      let '(n, rest) := parse_digits 0 s' in
      Some (if neg : bool then - n else n, rest)
  | EmptyString => None
  end.

Definition strip_prefix (p s : string) : option string :=
  if String.prefix p s
  then Some (String.substring (String.length p) (String.length s - String.length p) s)
  else None.

(** Recursive descent with fuel; every call consumes input, so the length
    of the text is fuel enough. *)
Fixpoint parse_value (fuel : nat) (s : string) {struct fuel} : option (json * string) :=
  match fuel with
  | O => None
  | S fuel =>
      match skip_ws s with
      | EmptyString => None
      | String c rest =>
          if Ascii.eqb c "{" then
            match skip_ws rest with
            | String "}" rest' => Some (JObj [], rest')
            | _ => '(kvs, rest') ← parse_members fuel rest; Some (JObj kvs, rest')
            end
          else if Ascii.eqb c "[" then
            match skip_ws rest with
            | String "]" rest' => Some (JArr [], rest')
            | _ => '(l, rest') ← parse_elements fuel rest; Some (JArr l, rest')
            end
          else if Ascii.eqb c dquote then
            '(str, rest') ← parse_string rest; Some (JStr str, rest')
          else if Ascii.eqb c "t" then
            rest' ← strip_prefix "rue" rest; Some (JBool true, rest')
          else if Ascii.eqb c "f" then
            rest' ← strip_prefix "alse" rest; Some (JBool false, rest')
          else if Ascii.eqb c "n" then
            rest' ← strip_prefix "ull" rest; Some (JNull, rest')
          else
            '(n, rest') ← parse_number (String c rest); Some (JNum n, rest')
      end
  end
with parse_members (fuel : nat) (s : string) {struct fuel}
  : option (list (string * json) * string) :=
  match fuel with
  | O => None
  | S fuel =>
      match skip_ws s with
      | String c rest =>
          if Ascii.eqb c dquote then
            '(k, rest) ← parse_string rest;
            match skip_ws rest with
            | String ":" rest =>
                '(v, rest) ← parse_value fuel rest;
                match skip_ws rest with
                | String "," rest =>
                    '(kvs, rest) ← parse_members fuel rest; Some ((k, v) :: kvs, rest)
                | String "}" rest => Some ([(k, v)], rest)
                | _ => None
                end
            | _ => None
            end
          else None
      | EmptyString => None
      end
  end
with parse_elements (fuel : nat) (s : string) {struct fuel}
  : option (list json * string) :=
  match fuel with
  | O => None
  | S fuel =>
      '(v, rest) ← parse_value fuel s;
      match skip_ws rest with
      | String "," rest =>
          '(l, rest) ← parse_elements fuel rest; Some (v :: l, rest)
      | String "]" rest => Some ([v], rest)
      | _ => None
      end
  end.

Definition parse (data : bytes) : result json :=
  let s := string_of_list_byte data in
  match parse_value (S (String.length s)) s with
  | Some (j, rest) =>
      match skip_ws rest with
      | EmptyString => Value j
      | _ => Error "invalid character after top-level value"
      end
  | None => Error "invalid character looking for beginning of value"
  end.

Definition text (s : string) : bytes := list_byte_of_string s.

(** ** UTF-8 *)

Definition is_continuation (c : ascii) : bool :=
  let n := N_of_ascii c in
  ((128 <=? n) && (n <=? 191))%N.

(** The first well-formed encoded character of a text and what follows it:
    one to four bytes, without overlong forms, surrogates or values above
    U+10FFFF. *)
Definition utf8_rune (s : string) : option (string * string) :=
  match s with
  | EmptyString => None
  | String c rest =>
      let n := N_of_ascii c in
      if (n <? 128)%N then Some (str1 c, rest)
      else if ((194 <=? n) && (n <=? 223))%N then
        match rest with
        | String c1 rest =>
            if is_continuation c1 then Some (String c (str1 c1), rest) else None
        | _ => None
        end
      else if ((224 <=? n) && (n <=? 239))%N then
        match rest with
        | String c1 (String c2 rest) =>
            let n1 := N_of_ascii c1 in
            if is_continuation c1 && is_continuation c2
               && (negb (n =? 224)%N || (160 <=? n1)%N)
               && (negb (n =? 237)%N || (n1 <=? 159)%N)
            then Some (String c (String c1 (str1 c2)), rest)
            else None
        | _ => None
        end
      else if ((240 <=? n) && (n <=? 244))%N then
        match rest with
        | String c1 (String c2 (String c3 rest)) =>
            let n1 := N_of_ascii c1 in
            if is_continuation c1 && is_continuation c2 && is_continuation c3
               && (negb (n =? 240)%N || (144 <=? n1)%N)
               && (negb (n =? 244)%N || (n1 <=? 143)%N)
            then Some (String c (String c1 (String c2 (str1 c3))), rest)
            else None
        | _ => None
        end
      else None
  end.

Fixpoint valid_utf8_from (fuel : nat) (s : string) : bool :=
  match s, fuel with
  | EmptyString, _ => true
  | _, O => false
  | _, S fuel =>
      match utf8_rune s with
      | Some (_, rest) => valid_utf8_from fuel rest
      | None => false
      end
  end.

(** [utf8.ValidString]. *)
Definition valid_utf8 (s : string) : bool := valid_utf8_from (String.length s) s.

(** U+FFFD, the replacement character. *)
Definition replacement : string :=
  String (ascii_of_nat 239) (String (ascii_of_nat 191) (str1 (ascii_of_nat 189))).

(** encoding/json reads a string literal with every byte that is not part
    of a well-formed character replaced by U+FFFD. *)
Fixpoint replace_invalid (fuel : nat) (s : string) : string :=
  match s, fuel with
  | EmptyString, _ => EmptyString
  | _, O => EmptyString
  | String _ tail, S fuel =>
      match utf8_rune s with
      | Some (rune, rest) => rune ++ replace_invalid fuel rest
      | None => replacement ++ replace_invalid fuel tail
      end
  end.

Definition to_valid_utf8 (s : string) : string := replace_invalid (String.length s) s.

(** ** encoding/base64, StdEncoding (RFC 4648 with padding) *)

Definition alphabet : string :=
  "ABCDEFGHIJKLMNOPQRSTUVWXYZabcdefghijklmnopqrstuvwxyz0123456789+/".

Definition b64_char (n : N) : ascii :=
  match String.get (N.to_nat n) alphabet with
  | Some c => c
  | None => "="%char
  end.

Definition b64_value (c : ascii) : option N :=
  let n := N_of_ascii c in
  (if (65 <=? n) && (n <=? 90) then Some (n - 65)
   else if (97 <=? n) && (n <=? 122) then Some (n - 71)
   else if (48 <=? n) && (n <=? 57) then Some (n + 4)
   else if n =? 43 then Some 62
   else if n =? 47 then Some 63
   else None)%N.

Definition byte_of_N (n : N) : Byte.byte :=
  match Byte.of_N (n mod 256) with
  | Some b => b
  | None => Byte.x00
  end.

(** The four 6-bit groups of three bytes, and the three bytes of four
    groups. *)
Definition sextet1 (a : Byte.byte) : N := N.shiftr (Byte.to_N a) 2.
Definition sextet2 (a b : Byte.byte) : N :=
  N.lor (N.shiftl (N.land (Byte.to_N a) 3) 4) (N.shiftr (Byte.to_N b) 4).
Definition sextet3 (b c : Byte.byte) : N :=
  N.lor (N.shiftl (N.land (Byte.to_N b) 15) 2) (N.shiftr (Byte.to_N c) 6).
Definition sextet4 (c : Byte.byte) : N := N.land (Byte.to_N c) 63.

Definition octet1 (v1 v2 : N) : Byte.byte :=
  byte_of_N (N.lor (N.shiftl v1 2) (N.shiftr v2 4)).
Definition octet2 (v2 v3 : N) : Byte.byte :=
  byte_of_N (N.lor (N.shiftl v2 4) (N.shiftr v3 2)).
Definition octet3 (v3 v4 : N) : Byte.byte :=
  byte_of_N (N.lor (N.shiftl v3 6) v4).

(** A last group of one or two bytes is filled with zero bits and padded. *)
Fixpoint b64_encode (l : bytes) : string :=
  match l with
  | [] => EmptyString
  | [a] =>
      String (b64_char (sextet1 a))
        (String (b64_char (sextet2 a Byte.x00)) "==")
  | [a; b] =>
      String (b64_char (sextet1 a))
        (String (b64_char (sextet2 a b))
           (String (b64_char (sextet3 b Byte.x00)) "="))
  | a :: b :: c :: rest =>
      String (b64_char (sextet1 a))
        (String (b64_char (sextet2 a b))
           (String (b64_char (sextet3 b c))
              (String (b64_char (sextet4 c)) (b64_encode rest))))
  end.

Definition illegal : result bytes := Error "illegal base64 data".

(** Quantum by quantum; padding is accepted in the last quantum only. *)
Fixpoint b64_decode_quanta (s : string) : result bytes :=
  match s with
  | EmptyString => Value []
  | String c1 (String c2 (String c3 (String c4 rest))) =>
      match b64_value c1, b64_value c2 with
      | Some v1, Some v2 =>
          match b64_value c3, b64_value c4, rest with
          | Some v3, Some v4, _ =>
              match b64_decode_quanta rest with
              | Value l => Value (octet1 v1 v2 :: octet2 v2 v3 :: octet3 v3 v4 :: l)
              | Error e => Error e
              end
          | Some v3, None, EmptyString =>
              if Ascii.eqb c4 "="
              then Value [octet1 v1 v2; octet2 v2 v3]
              else illegal
          | None, None, EmptyString =>
              if Ascii.eqb c3 "=" && Ascii.eqb c4 "=" then Value [octet1 v1 v2] else illegal
          | _, _, _ => illegal
          end
      | _, _ => illegal
      end
  | _ => illegal
  end.


Definition is_newline (c : ascii) : bool :=
  Ascii.eqb c newline || Ascii.eqb c (ascii_of_nat 13).


(** Carriage returns and line feeds are ignored by the decoder. *)
Fixpoint drop_newlines (s : string) : string :=
  match s with
  | EmptyString => EmptyString
  | String c rest =>
      if is_newline c
      then drop_newlines rest
      else String c (drop_newlines rest)
  end.

Definition b64_decode (s : string) : result bytes :=
  b64_decode_quanta (drop_newlines s).

(** protojson reads a bytes field with the URL alphabet when the text has
    one of its two characters, and without padding when the length of the
    text is not a multiple of four. *)
Fixpoint contains (p : ascii -> bool) (s : string) : bool :=
  match s with
  | EmptyString => false
  | String c rest => p c || contains p rest
  end.

Fixpoint from_url_alphabet (s : string) : string :=
  match s with
  | EmptyString => EmptyString
  | String c rest =>
      String (if Ascii.eqb c "-" then "+"%char
              else if Ascii.eqb c "_" then "/"%char
              else if Ascii.eqb c "+" || Ascii.eqb c "/" then "!"%char
              else c) (from_url_alphabet rest)
  end.

Definition proto_b64_decode (s : string) : result bytes :=
  let url := contains (fun c => Ascii.eqb c "-" || Ascii.eqb c "_") s in
  let s' := if url then from_url_alphabet s else s in
  match (String.length s mod 4)%nat with
  | O => b64_decode s'
  | _ =>
      if contains (fun c => Ascii.eqb c "=") s then illegal
      else b64_decode_quanta
             (drop_newlines s'
                ++ match (String.length (drop_newlines s') mod 4)%nat with
                   | 2%nat => "=="
                   | 3%nat => "="
                   | O => EmptyString
                   | _ => "!"
                   end)
  end.

(** ** crypto/x509: the DER structure of a certificate *)

Record certificate : Type := { raw : bytes }.

(** One DER element: its tag, its content and what follows it.  The length
    is definite and minimal, in the short form or in the long form with one
    or two length bytes. *)
Definition read_element (data : bytes) : option (N * bytes * bytes) :=
  match data with
  | tag :: len :: body =>
      let take (minimum n : N) (body : bytes) :=
        if ((n <? minimum) || (N.of_nat (length body) <? n))%N then None
        else Some (Byte.to_N tag, firstn (N.to_nat n) body, skipn (N.to_nat n) body) in
      let len := Byte.to_N len in
      if (len <? 128)%N then take 0%N len body
      else if (len =? 129)%N then
        match body with
        | l1 :: body => take 128%N (Byte.to_N l1) body
        | _ => None
        end
      else if (len =? 130)%N then
        match body with
        | l1 :: l2 :: body => take 256%N (Byte.to_N l1 * 256 + Byte.to_N l2)%N body
        | _ => None
        end
      else None
  | _ => None
  end.

Definition SEQUENCE : N := 48.
Definition INTEGER : N := 2.
Definition BIT_STRING : N := 3.
(** The tag [0] of the version, context-specific and constructed. *)
Definition VERSION : N := 160.

(** [ReadASN1(&out, tag)]: the content of the next element, which carries
    [tag]; [e] is the error of the caller when it does not. *)
Definition read_asn1 (tag : N) (e : string) (data : bytes) : result (bytes * bytes) :=
  match read_element data with
  | Some (t, content, rest) => if (t =? tag)%N then Value (content, rest) else Error e
  | None => Error e
  end.

(** The optional version, 0 to 2 on the wire. *)
Definition read_version (tbs : bytes) : result bytes :=
  match read_element tbs with
  | Some (t, content, rest) =>
      if (t =? VERSION)%N then
        match read_element content with
        | Some (t', [v], []) =>
            if negb (t' =? INTEGER)%N || (127 <? Byte.to_N v)%N
            then Error "x509: malformed version"
            else if (2 <? Byte.to_N v)%N then Error "x509: invalid version"
            else Value rest
        | _ => Error "x509: malformed version"
        end
      else Value tbs
  | None => Value tbs
  end.

(** The serial number is a DER integer in minimal form and not negative. *)
Definition check_serial (serial : bytes) : result unit :=
  match serial with
  | [] => Error "x509: malformed serial number"
  | b0 :: more =>
      let minimal :=
        match more with
        | [] => true
        | b1 :: _ =>
            negb (((Byte.to_N b0 =? 0) && (Byte.to_N b1 <? 128))
                  || ((Byte.to_N b0 =? 255) && (127 <? Byte.to_N b1)))%N
        end in
      if negb minimal then Error "x509: malformed serial number"
      else if (127 <? Byte.to_N b0)%N then Error "x509: negative serial number"
      else Value tt
  end.

Definition same_bytes (a b : bytes) : bool :=
  bool_decide (map Byte.to_N a = map Byte.to_N b).

(** The reads of [parseCertificate], in its order and with its messages:
    the certificate, the to-be-signed part, version, serial number, the two
    signature algorithm identifiers (which agree), issuer, validity,
    subject, public key, and the signature. *)
Definition check_certificate (der : bytes) : result unit :=
  rbind (read_asn1 SEQUENCE "x509: malformed certificate" der) (fun '(input, trailing) =>
  rbind (read_asn1 SEQUENCE "x509: malformed tbs certificate" input) (fun '(tbs, input) =>
  rbind (read_version tbs) (fun tbs =>
  rbind (read_asn1 INTEGER "x509: malformed serial number" tbs) (fun '(serial, tbs) =>
  rbind (check_serial serial) (fun _ =>
  rbind (read_asn1 SEQUENCE "x509: malformed signature algorithm identifier" tbs)
        (fun '(sigAISeq, tbs) =>
  rbind (read_asn1 SEQUENCE "x509: malformed algorithm identifier" input)
        (fun '(outerSigAISeq, input) =>
  if negb (same_bytes outerSigAISeq sigAISeq)
  then Error "x509: inner and outer signature algorithm identifiers don't match"
  else
  rbind (read_asn1 SEQUENCE "x509: malformed issuer" tbs) (fun '(issuerSeq, tbs) =>
  rbind (read_asn1 SEQUENCE "x509: malformed validity" tbs) (fun '(validity, tbs) =>
  rbind (read_asn1 SEQUENCE "x509: malformed issuer" tbs) (fun '(subjectSeq, tbs) =>
  rbind (read_asn1 SEQUENCE "x509: malformed spki" tbs) (fun '(spki, tbs) =>
  rbind (read_asn1 SEQUENCE "x509: malformed public key algorithm identifier" spki)
        (fun '(pkAISeq, spki) =>
  rbind (read_asn1 BIT_STRING "x509: malformed subjectPublicKey" spki) (fun '(spk, _) =>
  rbind (read_asn1 BIT_STRING "x509: malformed signature" input) (fun '(signature, _) =>
  match trailing with
  | [] => Value tt
  | _ => Error "x509: trailing data"
  end)))))))))))))).

(** [x509.ParseCertificate]: the certificate keeps the bytes it was read
    from. *)
Definition parse_certificate (der : bytes) : result certificate :=
  rbind (check_certificate der) (fun _ => Value {| raw := der |}).

(** ** The typed transparency-log record (dev.sigstore.rekor.v1) *)

Record log_id : Type := {
  keyId : bytes;
}.

Record kind_version : Type := {
  kind : string;
  version : string;
}.

Record inclusion_promise : Type := {
  signedEntryTimestamp : bytes;
}.

Record signed_checkpoint : Type := {
  checkpoint_envelope : string;
}.

Record inclusion_proof : Type := {
  proof_logIndex : Z;
  rootHash : bytes;
  treeSize : Z;
  hashes : list bytes;
  checkpoint : option signed_checkpoint;
}.

Record tlog_entry : Type := {
  logIndex : Z;
  logId : option log_id;
  kindVersion : option kind_version;
  integratedTime : Z;
  inclusionPromise : option inclusion_promise;
  inclusionProof : option inclusion_proof;
  canonicalizedBody : bytes;
}.

#[global] Instance types : LibTypes := {|
  float64 := Z;
  Struct := list (string * json);
  TransparencyLogEntry := tlog_entry;
  x509_Certificate := certificate;
|}.

Abbreviation iface := (any Z (list (string * json))).

(** ** encoding/json and structpb over [interface{}] *)

Fixpoint to_any (j : json) : iface :=
  match j with
  | JNull => ANil
  | JBool b => ABool b
  | JNum z => AFloat64 z
  | JStr s => AString (to_valid_utf8 s)
  | JArr l => ASlice (map to_any l)
  | JObj kvs =>
      AMap (list_to_map
              (rev (map (fun kv => match kv with
                                   | (k, v) => (to_valid_utf8 k, to_any v)
                                   end) kvs)))
  end.

Fixpoint of_any (v : iface) : json :=
  match v with
  | ANil => JNull
  | ABool b => JBool b
  | AFloat64 z => JNum z
  | AString s => JStr s
  | ASlice l => JArr (map of_any l)
  | AMap m => JObj (map_fold (fun k x acc => (k, of_any x) :: acc) [] m)
  | AUint32 n => JNum n
  | AStructs [] => JNull
  | AStructs l => JArr (map JObj l)
  end.

Definition first_error (e acc : option string) : option string :=
  match e with
  | Some _ => e
  | None => acc
  end.

Definition invalid_utf8 (s : string) : option string :=
  if valid_utf8 s then None else Some "proto: invalid UTF-8 in string".

(** What [structpb.NewValue] refuses: a Go type it does not convert, and a
    string or a key that is not valid UTF-8. *)
Fixpoint refused (v : iface) : option string :=
  match v with
  | AStructs _ => Some "proto: invalid type: []*structpb.Struct"
  | AString s => invalid_utf8 s
  | ASlice l => fold_right (fun x acc => first_error (refused x) acc) None l
  | AMap m =>
      map_fold (fun k x acc => first_error (invalid_utf8 k)
                                 (first_error (refused x) acc)) None m
  | _ => None
  end.

(** The numbers of a JSON value. *)
Fixpoint numbers_of (j : json) : list Z :=
  match j with
  | JNum z => [z]
  | JArr l => flat_map numbers_of l
  | JObj kvs => flat_map (fun kv => numbers_of (snd kv)) kvs
  | _ => []
  end.

(** encoding/json stores a number as a float64, which holds the integers up
    to 2^53 exactly; text with a larger integer is outside the model and
    refused, as text with a fraction or an exponent is by the parser. *)
Definition unmarshal_map (data : bytes) : result (gmap string iface) :=
  match parse data with
  | Error e => Error e
  | Value j =>
      if negb (forallb (fun z => Z.abs z <=? 2 ^ 53) (numbers_of j))
      then Error "json: number outside the model"
      else
        match to_any j with
        | AMap m => Value m
        | ANil => Value ∅
        | _ => Error "json: cannot unmarshal value into Go value of type map[string]interface {}"
        end
  end.

Definition marshal_indent (v : iface) : result bytes :=
  Value (text (print true 0 (of_any v))).

Definition new_struct (m : gmap string iface) : result (list (string * json)) :=
  match refused (AMap m) with
  | Some e => Error e
  | None =>
      match of_any (AMap m) with
      | JObj kvs => Value kvs
      | _ => Value []
      end
  end.

(** The strings of a JSON value, keys included. *)
Fixpoint strings_of (j : json) : list string :=
  match j with
  | JStr s => [s]
  | JArr l => flat_map strings_of l
  | JObj kvs => flat_map (fun kv => match kv with
                                    | (k, v) => k :: strings_of v
                                    end) kvs
  | _ => []
  end.

(** protojson does not write a string that is not valid UTF-8. *)
Definition proto_marshal (pretty : bool) (j : json) : result bytes :=
  if forallb valid_utf8 (strings_of j)
  then Value (text (print pretty 0 j))
  else Error "proto: string field contains invalid UTF-8".

(** protojson does not read text that is not valid UTF-8. *)
Definition proto_parse (data : bytes) : result json :=
  if valid_utf8 (string_of_list_byte data)
  then parse data
  else Error "proto: syntax error: invalid UTF-8".

Definition marshal_struct (s : list (string * json)) : result bytes :=
  proto_marshal false (JObj s).

(** ** protojson at the typed record *)

(** Fields with their default value are omitted; 64-bit integers are
    written as strings, bytes in base64. *)
Definition int64_field (k : string) (n : Z) : list (string * json) :=
  if n =? 0 then [] else [(k, JStr (fmt_d n))].

Definition string_field (k s : string) : list (string * json) :=
  if String.eqb s EmptyString then [] else [(k, JStr s)].

Definition bytes_field (k : string) (b : bytes) : list (string * json) :=
  string_field k (b64_encode b).

Definition message_field {A : Type} (k : string) (f : A -> json) (m : option A)
  : list (string * json) :=
  match m with
  | Some a => [(k, f a)]
  | None => []
  end.

Definition list_field {A : Type} (k : string) (f : A -> json) (l : list A)
  : list (string * json) :=
  match l with
  | [] => []
  | _ => [(k, JArr (map f l))]
  end.

Definition proof_to_json (p : inclusion_proof) : json :=
  JObj (int64_field "logIndex" (proof_logIndex p)
        ++ bytes_field "rootHash" (rootHash p)
        ++ int64_field "treeSize" (treeSize p)
        ++ list_field "hashes" (fun h => JStr (b64_encode h)) (hashes p)
        ++ message_field "checkpoint"
             (fun c => JObj (string_field "envelope" (checkpoint_envelope c)))
             (checkpoint p)).

Definition entry_to_json (t : tlog_entry) : json :=
  JObj (int64_field "logIndex" (logIndex t)
        ++ message_field "logId" (fun i => JObj (bytes_field "keyId" (keyId i)))
             (logId t)
        ++ message_field "kindVersion"
             (fun kv => JObj (string_field "kind" (kind kv)
                              ++ string_field "version" (version kv)))
             (kindVersion t)
        ++ int64_field "integratedTime" (integratedTime t)
        ++ message_field "inclusionPromise"
             (fun p => JObj (bytes_field "signedEntryTimestamp" (signedEntryTimestamp p)))
             (inclusionPromise t)
        ++ message_field "inclusionProof" proof_to_json (inclusionProof t)
        ++ bytes_field "canonicalizedBody" (canonicalizedBody t)).

Definition marshal_entry (t : tlog_entry) : result bytes :=
  proto_marshal false (entry_to_json t).

(** A 64-bit integer is read from a number or from a decimal string, and
    lies in the range of int64. *)
Definition in_int64 (n : Z) : result Z :=
  if (- 2 ^ 63 <=? n) && (n <? 2 ^ 63) then Value n
  else Error "proto: invalid value for int64 field".

Definition as_int64 (j : json) : result Z :=
  match j with
  | JNum n => in_int64 n
  | JStr s =>
      match parse_number s with
      | Some (n, EmptyString) => in_int64 n
      | _ => Error "proto: invalid value for int64 field"
      end
  | _ => Error "proto: invalid value for int64 field"
  end.

Definition as_string (j : json) : result string :=
  match j with
  | JStr s => Value s
  | _ => Error "proto: invalid value for string field"
  end.

Definition as_bytes (j : json) : result bytes :=
  match j with
  | JStr s =>
      match proto_b64_decode s with
      | Value b => Value b
      | Error _ => Error "proto: invalid value for bytes field"
      end
  | _ => Error "proto: invalid value for bytes field"
  end.

Definition unknown {A : Type} (k : string) : result A :=
  Error ("proto: unknown field " ++ quote k).

(** A field is read under its JSON name or under its proto name; [names]
    lists the fields of a message, proto name first. *)
Definition json_name (names : list (string * string)) (k : string) : option string :=
  snd <$> find (fun n => String.eqb (fst n) k || String.eqb (snd n) k) names.

(** Reading a message: the members of the object are taken in order; a name
    outside the schema is an error (the decoder does not discard unknown
    fields), and so is a field that occurs twice; [null] leaves a field
    unset. *)
Fixpoint read_members {A : Type} (names : list (string * string))
    (step : string -> json -> A -> result A) (seen : list string)
    (kvs : list (string * json)) (a : A) : result A :=
  match kvs with
  | [] => Value a
  | (k, v) :: rest =>
      match json_name names k with
      | None => unknown k
      | Some name =>
          if existsb (String.eqb name) seen
          then Error ("proto: duplicate field " ++ quote k)
          else match v with
               | JNull => read_members names step (name :: seen) rest a
               | _ => rbind (step name v a) (read_members names step (name :: seen) rest)
               end
      end
  end.

Definition read_message {A : Type} (names : list (string * string))
    (step : string -> json -> A -> result A) (init : A) (j : json) : result A :=
  match j with
  | JObj kvs => read_members names step [] kvs init
  | _ => Error "proto: syntax error: unexpected token"
  end.

Fixpoint read_list {A : Type} (f : json -> result A) (l : list json) : result (list A) :=
  match l with
  | [] => Value []
  | j :: rest => rbind (f j) (fun a => rbind (read_list f rest) (fun l => Value (a :: l)))
  end.

Definition as_list {A : Type} (f : json -> result A) (j : json) : result (list A) :=
  match j with
  | JArr l => read_list f l
  | _ => Error "proto: syntax error: unexpected token"
  end.

Definition as_log_id : json -> result log_id :=
  read_message [("key_id", "keyId")]
    (fun k v i => rbind (as_bytes v) (fun b => Value {| keyId := b |}))
    {| keyId := [] |}.

Definition as_kind_version : json -> result kind_version :=
  read_message [("kind", "kind"); ("version", "version")]
    (fun k v kv =>
       if String.eqb k "kind"
       then rbind (as_string v) (fun s => Value {| kind := s; version := version kv |})
       else rbind (as_string v) (fun s => Value {| kind := kind kv; version := s |}))
    {| kind := EmptyString; version := EmptyString |}.

Definition as_promise : json -> result inclusion_promise :=
  read_message [("signed_entry_timestamp", "signedEntryTimestamp")]
    (fun k v p => rbind (as_bytes v) (fun b => Value {| signedEntryTimestamp := b |}))
    {| signedEntryTimestamp := [] |}.

Definition as_checkpoint : json -> result signed_checkpoint :=
  read_message [("envelope", "envelope")]
    (fun k v c => rbind (as_string v) (fun s => Value {| checkpoint_envelope := s |}))
    {| checkpoint_envelope := EmptyString |}.

Definition as_proof : json -> result inclusion_proof :=
  read_message
    [("log_index", "logIndex"); ("root_hash", "rootHash"); ("tree_size", "treeSize");
     ("hashes", "hashes"); ("checkpoint", "checkpoint")]
    (fun k v p =>
       if String.eqb k "logIndex" then
         rbind (as_int64 v) (fun n => Value
           {| proof_logIndex := n; rootHash := rootHash p; treeSize := treeSize p;
              hashes := hashes p; checkpoint := checkpoint p |})
       else if String.eqb k "rootHash" then
         rbind (as_bytes v) (fun h => Value
           {| proof_logIndex := proof_logIndex p; rootHash := h; treeSize := treeSize p;
              hashes := hashes p; checkpoint := checkpoint p |})
       else if String.eqb k "treeSize" then
         rbind (as_int64 v) (fun n => Value
           {| proof_logIndex := proof_logIndex p; rootHash := rootHash p; treeSize := n;
              hashes := hashes p; checkpoint := checkpoint p |})
       else if String.eqb k "hashes" then
         rbind (as_list as_bytes v) (fun l => Value
           {| proof_logIndex := proof_logIndex p; rootHash := rootHash p;
              treeSize := treeSize p; hashes := l; checkpoint := checkpoint p |})
       else
         rbind (as_checkpoint v) (fun c => Value
           {| proof_logIndex := proof_logIndex p; rootHash := rootHash p;
              treeSize := treeSize p; hashes := hashes p; checkpoint := Some c |}))
    {| proof_logIndex := 0; rootHash := []; treeSize := 0; hashes := [];
       checkpoint := None |}.

Definition entry_of_json : json -> result tlog_entry :=
  read_message
    [("log_index", "logIndex"); ("log_id", "logId"); ("kind_version", "kindVersion");
     ("integrated_time", "integratedTime"); ("inclusion_promise", "inclusionPromise");
     ("inclusion_proof", "inclusionProof"); ("canonicalized_body", "canonicalizedBody")]
    (fun k v t =>
       if String.eqb k "logIndex" then
         rbind (as_int64 v) (fun n => Value
           {| logIndex := n; logId := logId t; kindVersion := kindVersion t;
              integratedTime := integratedTime t;
              inclusionPromise := inclusionPromise t;
              inclusionProof := inclusionProof t;
              canonicalizedBody := canonicalizedBody t |})
       else if String.eqb k "logId" then
         rbind (as_log_id v) (fun i => Value
           {| logIndex := logIndex t; logId := Some i; kindVersion := kindVersion t;
              integratedTime := integratedTime t;
              inclusionPromise := inclusionPromise t;
              inclusionProof := inclusionProof t;
              canonicalizedBody := canonicalizedBody t |})
       else if String.eqb k "kindVersion" then
         rbind (as_kind_version v) (fun kv => Value
           {| logIndex := logIndex t; logId := logId t; kindVersion := Some kv;
              integratedTime := integratedTime t;
              inclusionPromise := inclusionPromise t;
              inclusionProof := inclusionProof t;
              canonicalizedBody := canonicalizedBody t |})
       else if String.eqb k "integratedTime" then
         rbind (as_int64 v) (fun n => Value
           {| logIndex := logIndex t; logId := logId t; kindVersion := kindVersion t;
              integratedTime := n;
              inclusionPromise := inclusionPromise t;
              inclusionProof := inclusionProof t;
              canonicalizedBody := canonicalizedBody t |})
       else if String.eqb k "inclusionPromise" then
         rbind (as_promise v) (fun p => Value
           {| logIndex := logIndex t; logId := logId t; kindVersion := kindVersion t;
              integratedTime := integratedTime t;
              inclusionPromise := Some p;
              inclusionProof := inclusionProof t;
              canonicalizedBody := canonicalizedBody t |})
       else if String.eqb k "inclusionProof" then
         rbind (as_proof v) (fun p => Value
           {| logIndex := logIndex t; logId := logId t; kindVersion := kindVersion t;
              integratedTime := integratedTime t;
              inclusionPromise := inclusionPromise t;
              inclusionProof := Some p;
              canonicalizedBody := canonicalizedBody t |})
       else
         rbind (as_bytes v) (fun body => Value
           {| logIndex := logIndex t; logId := logId t; kindVersion := kindVersion t;
              integratedTime := integratedTime t;
              inclusionPromise := inclusionPromise t;
              inclusionProof := inclusionProof t;
              canonicalizedBody := body |}))
    {| logIndex := 0; logId := None; kindVersion := None; integratedTime := 0;
       inclusionPromise := None; inclusionProof := None; canonicalizedBody := [] |}.

Definition unmarshal_entry (data : bytes) : result tlog_entry :=
  rbind (proto_parse data) entry_of_json.

(** ** protojson at the bundle message

    The messages have the fields the converter reads; the two fields of the
    schema that it never reads, [timestampVerificationData] and
    [messageDigest], are accepted on reading and not kept. *)

Definition cert_to_json (c : protocommon_X509Certificate) : json :=
  JObj (bytes_field "rawBytes" (RawBytes c)).

Definition opt_to_json {A : Type} (f : A -> json) (m : option A) : json :=
  match m with
  | Some a => f a
  | None => JObj []
  end.

Definition signature_to_json (sg : protodsse_Signature) : json :=
  JObj (bytes_field "sig" (Sig sg) ++ string_field "keyid" (Keyid sg)).

Definition envelope_to_json (e : protodsse_Envelope) : json :=
  JObj (bytes_field "payload" (Payload e)
        ++ string_field "payloadType" (PayloadType e)
        ++ list_field "signatures" (opt_to_json signature_to_json) (Signatures e)).

Definition material_to_json (vm : protobundle_VerificationMaterial) : json :=
  JObj (match vm_Content vm with
        | VMContent_unset => []
        | VerificationMaterial_PublicKey hint =>
            [("publicKey", JObj (string_field "hint" hint))]
        | VerificationMaterial_X509CertificateChain chain =>
            [("x509CertificateChain",
              opt_to_json (fun ch => JObj (list_field "certificates"
                                             (opt_to_json cert_to_json)
                                             (Certificates ch))) chain)]
        | VerificationMaterial_Certificate c =>
            [("certificate", opt_to_json cert_to_json c)]
        end
        ++ list_field "tlogEntries" entry_to_json (TlogEntries vm)).

Definition bundle_to_json (b : protobundle_Bundle) : json :=
  JObj (string_field "mediaType" (MediaType b)
        ++ message_field "verificationMaterial" material_to_json
             (bundle_VerificationMaterial b)
        ++ match Content b with
           | Content_unset => []
           | Bundle_MessageSignature sg =>
               [("messageSignature", JObj (bytes_field "signature" sg))]
           | Bundle_DsseEnvelope e =>
               [("dsseEnvelope", opt_to_json envelope_to_json e)]
           end).

Definition marshal_bundle (b : protobundle_Bundle) : result bytes :=
  proto_marshal true (bundle_to_json b).

Definition as_cert : json -> result protocommon_X509Certificate :=
  read_message [("raw_bytes", "rawBytes")]
    (fun k v c => rbind (as_bytes v) (fun b => Value {| RawBytes := b |}))
    {| RawBytes := [] |}.

Definition as_signature : json -> result protodsse_Signature :=
  read_message [("sig", "sig"); ("keyid", "keyid")]
    (fun k v sg =>
       if String.eqb k "sig"
       then rbind (as_bytes v) (fun b => Value {| Sig := b; Keyid := Keyid sg |})
       else rbind (as_string v) (fun i => Value {| Sig := Sig sg; Keyid := i |}))
    {| Sig := []; Keyid := EmptyString |}.

Definition as_envelope : json -> result protodsse_Envelope :=
  read_message [("payload", "payload"); ("payloadType", "payloadType");
                ("signatures", "signatures")]
    (fun k v e =>
       if String.eqb k "payload" then
         rbind (as_bytes v) (fun b => Value
           {| Payload := b; PayloadType := PayloadType e; Signatures := Signatures e |})
       else if String.eqb k "payloadType" then
         rbind (as_string v) (fun t => Value
           {| Payload := Payload e; PayloadType := t; Signatures := Signatures e |})
       else
         rbind (as_list as_signature v) (fun l => Value
           {| Payload := Payload e; PayloadType := PayloadType e;
              Signatures := map Some l |}))
    {| Payload := []; PayloadType := EmptyString; Signatures := [] |}.

Definition as_chain : json -> result protocommon_X509CertificateChain :=
  read_message [("certificates", "certificates")]
    (fun k v ch => rbind (as_list as_cert v) (fun l => Value
                     {| Certificates := map Some l |}))
    {| Certificates := [] |}.

Definition as_hint : json -> result string :=
  read_message [("hint", "hint")] (fun k v h => as_string v) EmptyString.

(** A message whose content is not kept: any JSON object. *)
Definition as_ignored (j : json) : result unit :=
  match j with
  | JObj _ => Value tt
  | _ => Error "proto: syntax error: unexpected token"
  end.

Definition as_material : json -> result protobundle_VerificationMaterial :=
  read_message
    [("public_key", "publicKey"); ("x509_certificate_chain", "x509CertificateChain");
     ("certificate", "certificate"); ("tlog_entries", "tlogEntries");
     ("timestamp_verification_data", "timestampVerificationData")]
    (fun k v vm =>
       let content c :=
         match vm_Content vm with
         | VMContent_unset => Value {| vm_Content := c; TlogEntries := TlogEntries vm |}
         | _ => Error ("proto: error parsing " ++ quote k
                         ++ ", oneof dev.sigstore.bundle.v1.VerificationMaterial.content"
                         ++ " is already set")
         end in
       if String.eqb k "certificate" then
         rbind (as_cert v) (fun c => content (VerificationMaterial_Certificate (Some c)))
       else if String.eqb k "x509CertificateChain" then
         rbind (as_chain v)
               (fun ch => content (VerificationMaterial_X509CertificateChain (Some ch)))
       else if String.eqb k "publicKey" then
         rbind (as_hint v) (fun h => content (VerificationMaterial_PublicKey h))
       else if String.eqb k "tlogEntries" then
         rbind (as_list entry_of_json v) (fun l => Value
           {| vm_Content := vm_Content vm; TlogEntries := l |})
       else
         rbind (as_ignored v) (fun _ => Value vm))
    {| vm_Content := VMContent_unset; TlogEntries := [] |}.

Definition as_message_signature : json -> result bytes :=
  read_message [("message_digest", "messageDigest"); ("signature", "signature")]
    (fun k v sg =>
       if String.eqb k "signature" then as_bytes v
       else rbind (as_ignored v) (fun _ => Value sg))
    [].

Definition as_bundle : json -> result protobundle_Bundle :=
  read_message
    [("media_type", "mediaType"); ("verification_material", "verificationMaterial");
     ("message_signature", "messageSignature"); ("dsse_envelope", "dsseEnvelope")]
    (fun k v b =>
       let content c :=
         match Content b with
         | Content_unset => Value
             {| MediaType := MediaType b;
                bundle_VerificationMaterial := bundle_VerificationMaterial b;
                Content := c |}
         | _ => Error ("proto: error parsing " ++ quote k
                         ++ ", oneof dev.sigstore.bundle.v1.Bundle.content"
                         ++ " is already set")
         end in
       if String.eqb k "mediaType" then
         rbind (as_string v) (fun t => Value
           {| MediaType := t;
              bundle_VerificationMaterial := bundle_VerificationMaterial b;
              Content := Content b |})
       else if String.eqb k "verificationMaterial" then
         rbind (as_material v) (fun vm => Value
           {| MediaType := MediaType b;
              bundle_VerificationMaterial := Some vm;
              Content := Content b |})
       else if String.eqb k "dsseEnvelope" then
         rbind (as_envelope v) (fun e => content (Bundle_DsseEnvelope (Some e)))
       else
         rbind (as_message_signature v) (fun sg => content (Bundle_MessageSignature sg)))
    {| MediaType := EmptyString;
       bundle_VerificationMaterial := None;
       Content := Content_unset |}.

Definition unmarshal_bundle (data : bytes) : result protobundle_Bundle :=
  rbind (proto_parse data) as_bundle.

(** ** sigstore-go: validation of a bundle *)

Definition media_version (mediaType : string) : result Z :=
  if String.eqb mediaType "application/vnd.dev.sigstore.bundle+json;version=0.1"
     || String.eqb mediaType "application/vnd.dev.sigstore.bundle.v0.1+json"
  then Value 1
  else if String.eqb mediaType "application/vnd.dev.sigstore.bundle+json;version=0.2"
          || String.eqb mediaType "application/vnd.dev.sigstore.bundle.v0.2+json"
  then Value 2
  else if String.eqb mediaType "application/vnd.dev.sigstore.bundle+json;version=0.3"
          || String.eqb mediaType "application/vnd.dev.sigstore.bundle.v0.3+json"
  then Value 3
  else Error ("error getting bundle version: unsupported media type: " ++ mediaType).

Definition is_nil {A : Type} (l : list A) : bool :=
  match l with
  | [] => true
  | _ => false
  end.

(** What [tlog.ParseEntry] asks of an entry before it decodes the body: the
    body, a non-negative index, the log id with its key id, and the kind
    and version; an inclusion proof comes with its checkpoint. *)
Definition entry_error (t : tlog_entry) : option string :=
  let nil_value := Some "validation error: nil value" in
  if is_nil (canonicalizedBody t) || (logIndex t <? 0) then nil_value
  else
    match logId t, kindVersion t with
    | Some i, Some _ =>
        if is_nil (keyId i) then nil_value
        else
          match inclusionProof t with
          | Some {| checkpoint := None |} =>
              Some "validation error: inclusion proof missing required checkpoint"
          | _ => None
          end
    | _, _ => nil_value
    end.

Definition has_promise (t : tlog_entry) : bool :=
  match inclusionPromise t with
  | Some p => negb (is_nil (signedEntryTimestamp p))
  | None => false
  end.

Definition has_proof (t : tlog_entry) : bool :=
  match inclusionProof t with
  | Some _ => true
  | None => false
  end.

(** [GetX509CertificateChain] returns a chain. *)
Definition has_chain (content : isVerificationMaterial_Content) : bool :=
  match content with
  | VerificationMaterial_X509CertificateChain (Some _) => true
  | _ => false
  end.

(** The checks of [validate], in its order: the media type, every tlog
    entry, the promise or proof that the version asks for, no certificate
    chain from version 0.3, and a bundle with content and verification
    material. *)
Definition validate (b : protobundle_Bundle) : result (bool * bool) :=
  rbind (media_version (MediaType b)) (fun version =>
    let entries :=
      match bundle_VerificationMaterial b with
      | Some vm => TlogEntries vm
      | None => []
      end in
    match fold_right (fun t acc => first_error (entry_error t) acc) None entries with
    | Some e => Error e
    | None =>
        let promise := existsb has_promise entries in
        let proof := existsb has_proof entries in
        let populated := negb (is_nil entries) in
        let content :=
          match bundle_VerificationMaterial b with
          | Some vm => vm_Content vm
          | None => VMContent_unset
          end in
        if (version =? 1) && populated && negb promise
        then Error "inclusion promises missing in bundle (required for bundle v0.1)"
        else if negb (version =? 1) && populated && negb proof
        then Error "inclusion proof missing in bundle (required for bundle v0.2)"
        else if (3 <=? version) && has_chain content
        then Error "verification material cannot be X.509 certificate chain (for bundle v0.3)"
        else
          match Content b, content with
          | Content_unset, _ => Error "invalid bundle: missing bundle content"
          | _, VMContent_unset =>
              Error "invalid bundle: missing verification material content"
          | _, _ => Value (promise, proof)
          end
    end).

#[global] Instance ops : LibOps := {|
  uint32_of_float64 := fun z => z mod 2 ^ 32;
  x509_ParseCertificate := parse_certificate;
  Raw := raw;
  base64_EncodeToString := b64_encode;
  base64_DecodeString := b64_decode;
  json_Unmarshal := unmarshal_map;
  json_MarshalIndent := marshal_indent;
  structpb_NewStruct := new_struct;
  protojson_Marshal_Struct := marshal_struct;
  protojson_Marshal_TransparencyLogEntry := marshal_entry;
  protojson_Unmarshal_TransparencyLogEntry := unmarshal_entry;
  protojson_MarshalIndent_Bundle := marshal_bundle;
  protojson_Unmarshal_Bundle := unmarshal_bundle;
  bundle_validate := validate;
|}.

End Ref.

(** * Sample inputs for the reference implementation *)

Module Sample.
Import Ref.

(** A self-signed Ed25519 certificate (subject [CN=attest], serial number
    1), in the base64 of its PEM form, and its DER bytes. *)
Definition pem : string :=
  "MIIBIzCB1qADAgECAgEBMAUGAytlcDARMQ8wDQYDVQQDDAZhdHRlc3QwHhcNMjYx"
  ++ "MDMxMDQ0NjI3WhcNMzYxMDI4MDQ0NjI3WjARMQ8wDQYDVQQDDAZhdHRlc3QwKjAF"
  ++ "BgMrZXADIQCG7WsDS9YXgVYaSoxkwjwFynr92VBCWO60p52Ct4qqbKNTMFEwHQYD"
  ++ "VR0OBBYEFCedO+A6RWPIeYPrG9dC54M79BERMB8GA1UdIwQYMBaAFCedO+A6RWPI"
  ++ "eYPrG9dC54M79BERMA8GA1UdEwEB/wQFMAMBAf8wBQYDK2VwA0EAJlRnxh5WMcha"
  ++ "iq16d80Mo70rjK7XduDini0RH66dzLeBvfTbyRqnyjg6QKvziOcRh+8tS1XqFomK"
  ++ "HnhbeGygBw==".

Definition of_base64 (s : string) : bytes :=
  match b64_decode s with
  | Value b => b
  | Error _ => []
  end.

Definition der : bytes := Eval vm_compute in of_base64 pem.

(** Five bytes that are a DER element and not a certificate. *)
Definition not_a_certificate : bytes :=
  [Byte.x30; Byte.x03; Byte.x02; Byte.x01; Byte.x05].

(** The canonicalized body of a log entry of kind dsse, version 0.0.1, in
    base64: the hashes of an envelope and of its payload, and one signature
    with the public key of the certificate above as its verifier. *)
Definition body64 : string :=
  "eyJhcGlWZXJzaW9uIjoiMC4wLjEiLCJraW5kIjoiZHNzZSIsInNwZWMiOnsiZW52"
  ++ "ZWxvcGVIYXNoIjp7ImFsZ29yaXRobSI6InNoYTI1NiIsInZhbHVlIjoiOGMwMTQ4"
  ++ "MTFmZTRhYWRhMmIyNDRjNmNiNDIxMzk4ZTJmOWUxZTI2YzhkYTNkYTM2MjBkYmQ1"
  ++ "MWMyYjNlNWQzNSJ9LCJwYXlsb2FkSGFzaCI6eyJhbGdvcml0aG0iOiJzaGEyNTYi"
  ++ "LCJ2YWx1ZSI6IjQ0MTM2ZmEzNTViMzY3OGExMTQ2YWQxNmY3ZTg2NDllOTRmYjRm"
  ++ "YzIxZmU3N2U4MzEwYzA2MGY2MWNhYWZmOGEifSwic2lnbmF0dXJlcyI6W3sic2ln"
  ++ "bmF0dXJlIjoiYzJsbiIsInZlcmlmaWVyIjoiTFMwdExTMUNSVWRKVGlCUVZVSk1T"
  ++ "VU1nUzBWWkxTMHRMUzBLVFVOdmQwSlJXVVJMTWxaM1FYbEZRV2gxTVhKQk1IWlhS"
  ++ "alJHVjBkcmNVMWFUVWs0UW1Od05pOWtiRkZSYkdwMWRFdGxaR2R5WlV0eGJYYzlD"
  ++ "aTB0TFMwdFJVNUVJRkJWUWt4SlF5QkxSVmt0TFMwdExRbz0ifV19fQ==".

(** The key id of the log, a root hash and one hash of an inclusion proof,
    in base64. *)
Definition log64 : string := "wNI9atQGlz+VWfO6LRygH4QUfY/8W4RFwiT5i5WRgB0=".
Definition root64 : string := "SBNJTRN+FjG7owHVrKtue7eqdM4RhdRWVl71HXN2d7I=".
Definition leaf64 : string := "n5EWH0NDPkmm3m22gNefYBWfLkrJFyYhoShGQoFYRAs=".

Definition origin : string := "rekor.sigstore.dev - 1193050959916656506".

(** An entry in the typed record's own JSON form, with an inclusion proof. *)
Definition proved : Struct :=
  [("logIndex", JStr "5");
   ("logId", JObj [("keyId", JStr log64)]);
   ("kindVersion", JObj [("kind", JStr "dsse"); ("version", JStr "0.0.1")]);
   ("integratedTime", JStr "1700000000");
   ("inclusionProof",
    JObj [("logIndex", JStr "5"); ("rootHash", JStr root64); ("treeSize", JStr "9");
          ("hashes", JArr [JStr leaf64]);
          ("checkpoint", JObj [("envelope", JStr origin)])]);
   ("canonicalizedBody", JStr body64)].

(** An entry the typed schema accepts but that carries nothing except its
    index, written as a JSON number. *)
Definition unproved : Struct := [("logIndex", JNum 7)].

(** The same index in the typed record's own JSON form. *)
Definition bare : Struct := [("logIndex", JStr "7")].

(** An entry with a member the typed schema does not have. *)
Definition foreign : Struct := [("logIndex", JStr "5"); ("extra", JNum 1)].

Definition attestation (version : Z) (entries : list Struct) : pb_Attestation :=
  {| Version := version;
     VerificationMaterial := Some {| Certificate := der; TransparencyEntries := entries |};
     Envelope := Some {| Statement := text "{}"; Signature := text "sig" |} |}.

Definition one := attestation 1 [proved].
Definition two := attestation 1 [proved; unproved].

Definition proved_entry : tlog_entry :=
  Eval vm_compute in
    {| logIndex := 5;
       logId := Some {| keyId := of_base64 log64 |};
       kindVersion := Some {| kind := "dsse"; version := "0.0.1" |};
       integratedTime := 1700000000;
       inclusionPromise := None;
       inclusionProof := Some
         {| proof_logIndex := 5;
            rootHash := of_base64 root64;
            treeSize := 9;
            hashes := [of_base64 leaf64];
            checkpoint := Some {| checkpoint_envelope := origin |} |};
       canonicalizedBody := of_base64 body64 |}.

(** The typed record of the entry that carries its index only. *)
Definition bare_entry : tlog_entry :=
  {| logIndex := 7; logId := None; kindVersion := None; integratedTime := 0;
     inclusionPromise := None; inclusionProof := None; canonicalizedBody := [] |}.

(** A typed record whose kind is not valid UTF-8, which protojson does not
    write. *)
Definition garbled_entry : tlog_entry :=
  {| logIndex := 6;
     logId := None;
     kindVersion := Some {| kind := str1 (ascii_of_nat 255); version := "0.0.1" |};
     integratedTime := 0;
     inclusionPromise := None;
     inclusionProof := None;
     canonicalizedBody := [] |}.

Definition envelope : protodsse_Envelope :=
  {| Payload := text "{}";
     PayloadType := "application/vnd.in-toto+json";
     Signatures := [Some {| Sig := text "sig"; Keyid := EmptyString |}] |}.

Definition bundleOf (content : isVerificationMaterial_Content)
    (entries : list tlog_entry) (body : isBundle_Content) : bundle_Bundle :=
  {| Bundle := Some
       {| MediaType := "application/vnd.dev.sigstore.bundle.v0.3+json";
          bundle_VerificationMaterial := Some
            {| vm_Content := content; TlogEntries := entries |};
          Content := body |};
     hasInclusionPromise := false;
     hasInclusionProof := true |}.

Definition certificate_of_der : isVerificationMaterial_Content :=
  VerificationMaterial_Certificate (Some {| RawBytes := der |}).

(** A bundle as ToBundle builds it, the same without content, and one with
    an empty certificate chain. *)
Definition signed : bundle_Bundle :=
  bundleOf certificate_of_der [proved_entry] (Bundle_DsseEnvelope (Some envelope)).
Definition unsigned : bundle_Bundle :=
  bundleOf certificate_of_der [proved_entry] Content_unset.
Definition emptyChain : bundle_Bundle :=
  bundleOf (VerificationMaterial_X509CertificateChain (Some {| Certificates := [] |}))
           [] (Bundle_DsseEnvelope (Some envelope)).

(** The entry that FromBundle rebuilds from [proved_entry]: the members of
    [proved], in the order of the map they went through. *)
Definition rebuilt : Struct :=
  Eval vm_compute in
    match transparencyEntryToStruct proved_entry with
    | Ok s => s
    | _ => []
    end.

(** The JSON projection of [proved_entry], as a map. *)
Definition proved_map : gmap string Ref.iface :=
  Eval vm_compute in
    match projection proved_entry with
    | Value m => m
    | Error _ => ∅
    end.

(** JSON text is written with [quote], which supplies the quotation marks. *)
Definition member (k v : string) : string := quote k ++ ": " ++ v.

Definition object_of (data : bytes) : gmap string Ref.iface :=
  match unmarshal_map data with
  | Value raw => raw
  | Error _ => ∅
  end.


(** A certificate that is not base64, and an entries array without objects. *)
Definition bad_certificate : bytes :=
  text ("{" ++ member "verification_material"
                 ("{" ++ member "certificate" (quote "!!!!") ++ "}") ++ "}").

Definition no_objects : bytes :=
  text ("{" ++ member "verification_material"
                 ("{" ++ member "transparency_entries" ("[1, " ++ quote "x" ++ "]")
                      ++ "}") ++ "}").

(** Bundles that FromBundle reads differently: without verification
    material, and with a chain whose second certificate is nil under another
    media type, payload type and key id. *)
Definition hollow : bundle_Bundle :=
  {| Bundle := Some
       {| MediaType := "application/vnd.dev.sigstore.bundle.v0.3+json";
          bundle_VerificationMaterial := None;
          Content := Bundle_DsseEnvelope (Some envelope) |};
     hasInclusionPromise := false;
     hasInclusionProof := false |}.

Definition chained : bundle_Bundle :=
  {| Bundle := Some
       {| MediaType := "application/vnd.dev.sigstore.bundle+json;version=0.2";
          bundle_VerificationMaterial := Some
            {| vm_Content := VerificationMaterial_X509CertificateChain
                 (Some {| Certificates := [Some {| RawBytes := der |}; None] |});
               TlogEntries := [proved_entry] |};
          Content := Bundle_DsseEnvelope (Some
            {| Payload := text "{}";
               PayloadType := "text/plain";
               Signatures := [Some {| Sig := text "sig"; Keyid := "key-1" |}] |}) |};
     hasInclusionPromise := true;
     hasInclusionProof := false |}.

(** A bundle whose single signature is a nil pointer, and one whose
    certificate is a nil pointer; both have the single-certificate variant,
    a DSSE envelope and no tlog entries. *)
Definition nil_signature : bundle_Bundle :=
  {| Bundle := Some
       {| MediaType := "application/vnd.dev.sigstore.bundle.v0.3+json";
          bundle_VerificationMaterial := Some
            {| vm_Content := certificate_of_der; TlogEntries := [] |};
          Content := Bundle_DsseEnvelope (Some
            {| Payload := text "{}";
               PayloadType := "application/vnd.in-toto+json";
               Signatures := [None] |}) |};
     hasInclusionPromise := false;
     hasInclusionProof := false |}.

Definition nil_certificate : bundle_Bundle :=
  {| Bundle := Some
       {| MediaType := "application/vnd.dev.sigstore.bundle.v0.3+json";
          bundle_VerificationMaterial := Some
            {| vm_Content := VerificationMaterial_Certificate None;
               TlogEntries := [] |};
          Content := Bundle_DsseEnvelope (Some envelope) |};
     hasInclusionPromise := false;
     hasInclusionProof := false |}.

(** A JSON document with a member that the decoder does not look up. *)
Definition with_extra : bytes := text ("{" ++ member "extra" "1" ++ "}").

(** A bundle without tlog entries, as the validation returns it (no entry,
    so neither flag is set), the same with bytes that are not a
    certificate, and the JSON text of the first. *)
Definition plain : bundle_Bundle :=
  {| Bundle := Some
       {| MediaType := "application/vnd.dev.sigstore.bundle.v0.3+json";
          bundle_VerificationMaterial := Some
            {| vm_Content := certificate_of_der; TlogEntries := [] |};
          Content := Bundle_DsseEnvelope (Some envelope) |};
     hasInclusionPromise := false;
     hasInclusionProof := false |}.

Definition uncertified : bundle_Bundle :=
  {| Bundle := Some
       {| MediaType := "application/vnd.dev.sigstore.bundle.v0.3+json";
          bundle_VerificationMaterial := Some
            {| vm_Content := VerificationMaterial_Certificate
                               (Some {| RawBytes := not_a_certificate |});
               TlogEntries := [] |};
          Content := Bundle_DsseEnvelope (Some envelope) |};
     hasInclusionPromise := false;
     hasInclusionProof := false |}.

Definition plain_text : bytes :=
  match MarshalBundle (Some plain) with
  | Ok data => data
  | _ => []
  end.

(** The JSON text of [one], and the object decoded from it. *)
Definition encoded : bytes :=
  match MarshalAttestation (Some one) with
  | Ok data => data
  | _ => []
  end.

Definition decoded : gmap string Ref.iface := object_of encoded.

(** The attestations decoded from [encoded] and from [no_objects]. *)
Definition attestation_of (data : bytes) : pb_Attestation :=
  match UnmarshalAttestation data with
  | Ok a => a
  | _ => emptyAttestation
  end.

End Sample.


(** * Properties *)

Section Properties.
Context `{LO : LibOps}.

Abbreviation iface := (any float64 Struct).

Lemma wrap_Ok {A} ctx (r : result A) a : r = Value a → wrap ctx r = Ok a.
Proof. by intros ->. Qed.

Lemma wrap_Err {A} ctx (r : result A) e : r = Error e → wrap ctx r = Err (ctx ++ e).
Proof. by intros ->. Qed.

Lemma wrap_not_Panic {A} ctx (r : result A) : wrap ctx r ≠ Panic.
Proof. by destruct r. Qed.

Lemma lift_Err {A} (r : result A) e : lift r = Err e ↔ r = Error e.
Proof. unfold lift, wrap. destruct r; split; intros H; inversion H; subst; reflexivity. Qed.

Lemma lift_Ok {A} (r : result A) a : lift r = Ok a ↔ r = Value a.
Proof. unfold lift, wrap. destruct r; split; intros H; inversion H; subst; reflexivity. Qed.

Lemma transparencyEntryFromStruct_not_Panic s : transparencyEntryFromStruct s ≠ Panic.
Proof.
  unfold transparencyEntryFromStruct.
  destruct (protojson_Marshal_Struct s) as [d|]; simpl; [|done].
  by destruct (protojson_Unmarshal_TransparencyLogEntry d).
Qed.

Lemma transparencyEntryToStruct_not_Panic t : transparencyEntryToStruct t ≠ Panic.
Proof.
  unfold transparencyEntryToStruct.
  destruct (protojson_Marshal_TransparencyLogEntry t) as [d|]; simpl; [|done].
  destruct (json_Unmarshal d) as [m|]; simpl; [|done].
  by destruct (structpb_NewStruct m).
Qed.

(** C8: a nil attestation, a nil bundle and a bundle whose inner message is
    nil are each answered by an error value, not by a panic. *)
Theorem nil_inputs_fail_structurally :
  ToBundle None = Err "attestation cannot be nil"
  ∧ FromBundle None = Err "bundle cannot be nil"
  ∧ ∀ promise proof,
      FromBundle (Some {| Bundle := None;
                          hasInclusionPromise := promise;
                          hasInclusionProof := proof |})
      = Err "bundle cannot be nil".
Proof. repeat split. Qed.

(** C10: MarshalAttestation has no nil check: a nil attestation, a nil
    verification material or a nil envelope is dereferenced (a panic, not an
    error value), and with all three present the call is exactly the call of
    json.MarshalIndent; MarshalBundle answers nil by an error. *)
Theorem MarshalAttestation_dereferences_nil :
  MarshalAttestation None = Panic
  ∧ (∀ a, VerificationMaterial a = None → MarshalAttestation (Some a) = Panic)
  ∧ (∀ a, Envelope a = None → MarshalAttestation (Some a) = Panic)
  ∧ (∀ a vm env,
       VerificationMaterial a = Some vm → Envelope a = Some env →
       MarshalAttestation (Some a)
       = lift (json_MarshalIndent (AMap (attestationMap (Version a) vm env))))
  ∧ MarshalBundle None = Err "bundle cannot be nil"
  ∧ (∀ b, Bundle b = None → MarshalBundle (Some b) = Err "bundle cannot be nil").
Proof.
  split; [done|]. split.
  { intros a H. unfold MarshalAttestation. simpl. by rewrite H. }
  split.
  { intros a H. unfold MarshalAttestation. simpl.
    destruct (VerificationMaterial a); simpl; [|done]. by rewrite H. }
  split.
  { intros a vm env Hvm Henv. unfold MarshalAttestation. simpl.
    by rewrite Hvm, Henv. }
  split; [done|].
  intros b H. unfold MarshalBundle. simpl. by rewrite H.
Qed.

(** ** FromBundle *)

Lemma convertEntries_Forall2 entries structs :
  Forall2 (fun t s => transparencyEntryToStruct t = Ok s) entries structs →
  ∀ i, convertEntries i entries = Ok structs.
Proof.
  induction 1 as [|t s entries structs Hts _ IH]; intros i; simpl; [done|].
  rewrite Hts. simpl. by rewrite IH.
Qed.

Lemma convertEntries_Ok entries : ∀ i structs,
  convertEntries i entries = Ok structs →
  Forall2 (fun t s => transparencyEntryToStruct t = Ok s) entries structs.
Proof.
  induction entries as [|t entries IH]; intros i structs; simpl.
  { intros [= <-]. constructor. }
  destruct (transparencyEntryToStruct t) as [s| |] eqn:Hts; simpl; try done.
  destruct (convertEntries (S i) entries) as [ss| |] eqn:Hrest; simpl; try done.
  intros [= <-]. constructor; eauto.
Qed.

(** What a successful call of FromBundle has gone through. *)
Lemma FromBundle_Ok b a :
  FromBundle (Some b) = Ok a →
  ∃ pbundle vm certBytes dsse sig0 structs,
    Bundle b = Some pbundle
    ∧ bundle_VerificationMaterial pbundle = Some vm
    ∧ extractCertificate (vm_Content vm) = Ok certBytes
    ∧ Content pbundle = Bundle_DsseEnvelope (Some dsse)
    ∧ Signatures dsse = [Some sig0]
    ∧ convertEntries 0 (TlogEntries vm) = Ok structs
    ∧ a = {| Version := 1;
             VerificationMaterial := Some
               {| Certificate := certBytes; TransparencyEntries := structs |};
             Envelope := Some
               {| Statement := Payload dsse; Signature := Sig sig0 |} |}.
Proof.
  unfold FromBundle. simpl.
  destruct (Bundle b) as [pbundle|] eqn:Hb; [|done].
  destruct (bundle_VerificationMaterial pbundle) as [vm|] eqn:Hvm; simpl; [|done].
  destruct (extractCertificate (vm_Content vm)) as [certBytes| |] eqn:Hcert;
    simpl; try done.
  destruct (Content pbundle) as [| |[dsse|]] eqn:Hcontent; simpl; try done.
  destruct (Signatures dsse) as [|sg [|sg' sigs]] eqn:Hsigs; simpl; try done.
  destruct (convertEntries 0 (TlogEntries vm)) as [structs| |] eqn:Hconv;
    simpl; try done.
  destruct sg as [sig0|]; simpl; [|done].
  intros [= <-]. by exists pbundle, vm, certBytes, dsse, sig0, structs.
Qed.

(** The converse: those steps make FromBundle succeed. *)
Lemma FromBundle_succeeds b pbundle vm certBytes dsse sig0 structs :
  Bundle b = Some pbundle →
  bundle_VerificationMaterial pbundle = Some vm →
  extractCertificate (vm_Content vm) = Ok certBytes →
  Content pbundle = Bundle_DsseEnvelope (Some dsse) →
  Signatures dsse = [Some sig0] →
  Forall2 (fun t s => transparencyEntryToStruct t = Ok s) (TlogEntries vm) structs →
  FromBundle (Some b)
  = Ok {| Version := 1;
          VerificationMaterial := Some
            {| Certificate := certBytes; TransparencyEntries := structs |};
          Envelope := Some
            {| Statement := Payload dsse; Signature := Sig sig0 |} |}.
Proof.
  intros Hb Hvm Hcert Hcontent Hsig Hall.
  unfold FromBundle. simpl. rewrite Hb, Hvm. simpl. rewrite Hcert. simpl.
  rewrite Hcontent. simpl. rewrite Hsig. simpl.
  by rewrite (convertEntries_Forall2 _ _ Hall).
Qed.

(** C5, as amended: with the verification material present, the
    certificate bytes come from its oneof: the raw bytes of the single
    certificate, when that pointer is not nil; the raw bytes of the first
    certificate of a chain, when the chain and that certificate are not nil,
    and an error for an empty chain; an error for any other variant. *)
Theorem certificate_extraction b pbundle vm :
  Bundle b = Some pbundle →
  bundle_VerificationMaterial pbundle = Some vm →
  (∀ c, vm_Content vm = VerificationMaterial_Certificate (Some c) →
        extractCertificate (vm_Content vm) = Ok (RawBytes c)
        ∧ ∀ a, FromBundle (Some b) = Ok a → certificateOf a = Some (RawBytes c))
  ∧ (∀ chain c0 rest,
        vm_Content vm = VerificationMaterial_X509CertificateChain (Some chain) →
        Certificates chain = Some c0 :: rest →
        extractCertificate (vm_Content vm) = Ok (RawBytes c0)
        ∧ ∀ a, FromBundle (Some b) = Ok a → certificateOf a = Some (RawBytes c0))
  ∧ (∀ chain,
        vm_Content vm = VerificationMaterial_X509CertificateChain (Some chain) →
        Certificates chain = [] →
        FromBundle (Some b) = Err "no certificates in chain")
  ∧ (vm_Content vm = VMContent_unset
     ∨ (∃ hint, vm_Content vm = VerificationMaterial_PublicKey hint) →
        FromBundle (Some b) = Err "unsupported certificate type").
Proof.
  intros Hb Hvm.
  assert (Hread : ∀ bs a, extractCertificate (vm_Content vm) = Ok bs →
                          FromBundle (Some b) = Ok a → certificateOf a = Some bs).
  { intros bs a Hbs Ha.
    destruct (FromBundle_Ok _ _ Ha)
      as (pb' & vm' & bs' & dsse & sig0 & structs & Hb' & Hvm' & Hbs' & _ & _ & _ & ->).
    rewrite Hb in Hb'. injection Hb' as <-.
    rewrite Hvm in Hvm'. injection Hvm' as <-.
    rewrite Hbs in Hbs'. by injection Hbs' as <-. }
  split; [|split; [|split]].
  - intros c Hc.
    assert (extractCertificate (vm_Content vm) = Ok (RawBytes c)) as Hc0.
    { by rewrite Hc. }
    split; [done|]. intros a. by apply Hread.
  - intros chain c0 rest Hc Hchain.
    assert (extractCertificate (vm_Content vm) = Ok (RawBytes c0)) as Hc0.
    { rewrite Hc. simpl. by rewrite Hchain. }
    split; [done|]. intros a. by apply Hread.
  - intros chain Hc Hnil. unfold FromBundle. simpl. rewrite Hb, Hvm. simpl.
    rewrite Hc. simpl. by rewrite Hnil.
  - intros [Hc|[hint Hc]]; unfold FromBundle; simpl; rewrite Hb, Hvm; simpl;
      by rewrite Hc.
Qed.

(** C3, as amended: with the certificate extracted, a DSSE envelope that is
    not nil, with exactly one signature that is not nil, and convertible
    tlog entries give the attestation with version 1, those certificate
    bytes, every entry converted in order, the payload as statement and the
    signature; any other content, or any other number of signatures, is an
    error, also when it is the certificate extraction that fails. *)
Theorem FromBundle_assembles b pbundle vm :
  Bundle b = Some pbundle →
  bundle_VerificationMaterial pbundle = Some vm →
  (∀ certBytes dsse sig0 structs,
      extractCertificate (vm_Content vm) = Ok certBytes →
      Content pbundle = Bundle_DsseEnvelope (Some dsse) →
      Signatures dsse = [Some sig0] →
      Forall2 (fun t s => transparencyEntryToStruct t = Ok s) (TlogEntries vm) structs →
      FromBundle (Some b)
      = Ok {| Version := 1;
              VerificationMaterial := Some
                {| Certificate := certBytes; TransparencyEntries := structs |};
              Envelope := Some
                {| Statement := Payload dsse; Signature := Sig sig0 |} |})
  ∧ (∀ certBytes,
      extractCertificate (vm_Content vm) = Ok certBytes →
      (∀ e, Content pbundle ≠ Bundle_DsseEnvelope e) →
      FromBundle (Some b) = Err "bundle does not contain a DSSE envelope")
  ∧ (∀ certBytes dsse,
      extractCertificate (vm_Content vm) = Ok certBytes →
      Content pbundle = Bundle_DsseEnvelope (Some dsse) →
      length (Signatures dsse) ≠ 1%nat →
      FromBundle (Some b)
      = Err ("expected exactly one signature, got "
               ++ fmt_d (Z.of_nat (length (Signatures dsse)))))
  ∧ (extractCertificate (vm_Content vm) ≠ Panic →
      (∀ e, Content pbundle ≠ Bundle_DsseEnvelope e)
      ∨ (∃ dsse, Content pbundle = Bundle_DsseEnvelope (Some dsse)
                 ∧ length (Signatures dsse) ≠ 1%nat) →
      ∃ msg, FromBundle (Some b) = Err msg).
Proof.
  intros Hb Hvm.
  assert (Hother : ∀ certBytes,
    extractCertificate (vm_Content vm) = Ok certBytes →
    (∀ e, Content pbundle ≠ Bundle_DsseEnvelope e) →
    FromBundle (Some b) = Err "bundle does not contain a DSSE envelope").
  { intros certBytes Hcert Hnot. unfold FromBundle. simpl. rewrite Hb, Hvm. simpl.
    rewrite Hcert. simpl. destruct (Content pbundle) as [| |e]; try done.
    by destruct (Hnot e). }
  assert (Hcount : ∀ certBytes dsse,
    extractCertificate (vm_Content vm) = Ok certBytes →
    Content pbundle = Bundle_DsseEnvelope (Some dsse) →
    length (Signatures dsse) ≠ 1%nat →
    FromBundle (Some b)
    = Err ("expected exactly one signature, got "
             ++ fmt_d (Z.of_nat (length (Signatures dsse))))).
  { intros certBytes dsse Hcert Hcontent Hlen. unfold FromBundle. simpl.
    rewrite Hb, Hvm. simpl. rewrite Hcert. simpl. rewrite Hcontent. simpl.
    by destruct (Nat.eqb_spec (length (Signatures dsse)) 1). }
  split; [|split; [done|split; [done|]]].
  - intros certBytes dsse sig0 structs Hcert Hcontent Hsig Hall.
    by eapply FromBundle_succeeds.
  - intros Hnp Hbad.
    destruct (extractCertificate (vm_Content vm)) as [certBytes|msg|] eqn:Hcert;
      [| |done].
    + destruct Hbad as [Hnot|(dsse & Hcontent & Hlen)]; eexists; eauto.
    + exists msg. unfold FromBundle. simpl. rewrite Hb, Hvm. simpl. by rewrite Hcert.
Qed.

(** ** ToBundle *)

(** ToBundle past its checks: the call of bundle.NewBundle on the assembled
    message, whose verdict is the verdict of ToBundle. *)
Lemma ToBundle_reaches_NewBundle a vm env cert entry0 rest tlogEntry :
  VerificationMaterial a = Some vm →
  Envelope a = Some env →
  Version a = 1 →
  x509_ParseCertificate (Certificate vm) = Value cert →
  TransparencyEntries vm = entry0 :: rest →
  transparencyEntryFromStruct entry0 = Ok tlogEntry →
  ToBundle (Some a) = lift (bundle_NewBundle (assembleBundle cert env tlogEntry)).
Proof.
  intros Hvm Henv Hver Hcert Hentries Hentry.
  unfold ToBundle. rewrite Hver. simpl. rewrite Hvm. simpl.
  rewrite Hcert. simpl. rewrite Henv. simpl. rewrite Hentries, Hentry. done.
Qed.

(** C2, as amended: with both blocks present, version 1, a certificate that
    parses, an entry 0 that the adapter converts, and a bundle that
    bundle.NewBundle accepts, ToBundle returns that bundle: the v0.3 media
    type, the single-certificate variant with the parsed certificate's raw
    bytes, the converted entry 0 as the only tlog entry, and the DSSE
    envelope with the statement, the in-toto payload type and the one
    signature. *)
Theorem ToBundle_assembles a vm env cert entry0 rest tlogEntry flags :
  VerificationMaterial a = Some vm →
  Envelope a = Some env →
  Version a = 1 →
  x509_ParseCertificate (Certificate vm) = Value cert →
  TransparencyEntries vm = entry0 :: rest →
  transparencyEntryFromStruct entry0 = Ok tlogEntry →
  bundle_validate (assembleBundle cert env tlogEntry) = Value flags →
  ∃ b pbundle,
    ToBundle (Some a) = Ok b
    ∧ Bundle b = Some pbundle
    ∧ MediaType pbundle = "application/vnd.dev.sigstore.bundle.v0.3+json"
    ∧ bundle_VerificationMaterial pbundle = Some
        {| vm_Content := VerificationMaterial_Certificate
                           (Some {| RawBytes := Raw cert |});
           TlogEntries := [tlogEntry] |}
    ∧ Content pbundle = Bundle_DsseEnvelope (Some
        {| Payload := Statement env;
           PayloadType := "application/vnd.in-toto+json";
           Signatures := [Some {| Sig := Signature env; Keyid := EmptyString |}] |}).
Proof.
  intros Hvm Henv Hver Hcert Hentries Hentry Hvalid.
  rewrite (ToBundle_reaches_NewBundle _ _ _ _ _ _ _ Hvm Henv Hver Hcert Hentries Hentry).
  unfold bundle_NewBundle. rewrite Hvalid. destruct flags as [promise proof].
  eexists _, _. split; [reflexivity|]. simpl. done.
Qed.

(** C4, as amended: with both blocks present, ToBundle returns an error
    exactly when the version is not 1, or the certificate does not parse, or
    there is no transparency entry, or entry 0 does not convert, or
    bundle.NewBundle rejects the assembled bundle; the checks run in this
    order and each answers with its own message. A nil attestation is
    answered first, and version 999 by the version error. *)
Theorem ToBundle_errors :
  ToBundle None = Err "attestation cannot be nil"
  ∧ (∀ a, Version a = 999 →
       ToBundle (Some a) = Err "unsupported attestation version: 999")
  ∧ (∀ a, Version a ≠ 1 →
       ToBundle (Some a)
       = Err ("unsupported attestation version: " ++ fmt_d (Version a)))
  ∧ ∀ a vm env,
      VerificationMaterial a = Some vm →
      Envelope a = Some env →
      (Version a ≠ 1 →
         ToBundle (Some a)
         = Err ("unsupported attestation version: " ++ fmt_d (Version a)))
      ∧ (∀ e, Version a = 1 →
         x509_ParseCertificate (Certificate vm) = Error e →
         ToBundle (Some a) = Err ("failed to parse certificate: " ++ e))
      ∧ (∀ cert, Version a = 1 →
         x509_ParseCertificate (Certificate vm) = Value cert →
         TransparencyEntries vm = [] →
         ToBundle (Some a) = Err "no transparency entries found")
      ∧ (∀ cert entry0 rest e, Version a = 1 →
         x509_ParseCertificate (Certificate vm) = Value cert →
         TransparencyEntries vm = entry0 :: rest →
         transparencyEntryFromStruct entry0 = Err e →
         ToBundle (Some a) = Err ("failed to convert transparency entry: " ++ e))
      ∧ (∀ cert entry0 rest tlogEntry e, Version a = 1 →
         x509_ParseCertificate (Certificate vm) = Value cert →
         TransparencyEntries vm = entry0 :: rest →
         transparencyEntryFromStruct entry0 = Ok tlogEntry →
         bundle_NewBundle (assembleBundle cert env tlogEntry) = Error e →
         ToBundle (Some a) = Err e)
      ∧ ((∃ e, ToBundle (Some a) = Err e) ↔
         Version a ≠ 1
         ∨ (∃ e, x509_ParseCertificate (Certificate vm) = Error e)
         ∨ TransparencyEntries vm = []
         ∨ (∃ entry0 e, head (TransparencyEntries vm) = Some entry0
                        ∧ transparencyEntryFromStruct entry0 = Err e)
         ∨ (∃ cert entry0 tlogEntry e,
              x509_ParseCertificate (Certificate vm) = Value cert
              ∧ head (TransparencyEntries vm) = Some entry0
              ∧ transparencyEntryFromStruct entry0 = Ok tlogEntry
              ∧ bundle_NewBundle (assembleBundle cert env tlogEntry) = Error e)).
Proof.
  split; [done|]. split.
  { intros a Hver. unfold ToBundle. by rewrite Hver. }
  split.
  { intros a Hver. unfold ToBundle. by destruct (Z.eqb_spec (Version a) 1). }
  intros a vm env Hvm Henv.
  assert (Hversion : Version a ≠ 1 →
            ToBundle (Some a)
            = Err ("unsupported attestation version: " ++ fmt_d (Version a))).
  { intros Hver. unfold ToBundle. by destruct (Z.eqb_spec (Version a) 1). }
  assert (Hparse : ∀ e, Version a = 1 →
            x509_ParseCertificate (Certificate vm) = Error e →
            ToBundle (Some a) = Err ("failed to parse certificate: " ++ e)).
  { intros e Hver Hcert. unfold ToBundle. rewrite Hver. simpl. rewrite Hvm. simpl.
    by rewrite Hcert. }
  assert (Hempty : ∀ cert, Version a = 1 →
            x509_ParseCertificate (Certificate vm) = Value cert →
            TransparencyEntries vm = [] →
            ToBundle (Some a) = Err "no transparency entries found").
  { intros cert Hver Hcert Hnil. unfold ToBundle. rewrite Hver. simpl.
    rewrite Hvm. simpl. rewrite Hcert. simpl. rewrite Henv. simpl. by rewrite Hnil. }
  assert (Hadapter : ∀ cert entry0 rest e, Version a = 1 →
            x509_ParseCertificate (Certificate vm) = Value cert →
            TransparencyEntries vm = entry0 :: rest →
            transparencyEntryFromStruct entry0 = Err e →
            ToBundle (Some a) = Err ("failed to convert transparency entry: " ++ e)).
  { intros cert entry0 rest e Hver Hcert Hentries Hentry. unfold ToBundle.
    rewrite Hver. simpl. rewrite Hvm. simpl. rewrite Hcert. simpl.
    rewrite Henv. simpl. by rewrite Hentries, Hentry. }
  assert (Hnew : ∀ cert entry0 rest tlogEntry e, Version a = 1 →
            x509_ParseCertificate (Certificate vm) = Value cert →
            TransparencyEntries vm = entry0 :: rest →
            transparencyEntryFromStruct entry0 = Ok tlogEntry →
            bundle_NewBundle (assembleBundle cert env tlogEntry) = Error e →
            ToBundle (Some a) = Err e).
  { intros cert entry0 rest tlogEntry e Hver Hcert Hentries Hentry Hnew.
    rewrite (ToBundle_reaches_NewBundle _ _ _ _ _ _ _ Hvm Henv Hver Hcert Hentries Hentry).
    by apply lift_Err. }
  repeat (split; [done|]).
  split.
  - intros [e He].
    destruct (decide (Version a = 1)) as [Hver|]; [|by left].
    right.
    destruct (x509_ParseCertificate (Certificate vm)) as [cert|e'] eqn:Hcert;
      [|by left; eexists].
    right.
    destruct (TransparencyEntries vm) as [|entry0 rest] eqn:Hentries; [by left|].
    right.
    destruct (transparencyEntryFromStruct entry0) as [tlogEntry|e'|] eqn:Hentry.
    + right. exists cert, entry0, tlogEntry, e. repeat split; try done.
      apply lift_Err. rewrite <- He. symmetry.
      by eapply ToBundle_reaches_NewBundle.
    + left. by exists entry0, e'.
    + by destruct (transparencyEntryFromStruct_not_Panic entry0).
  - intros H.
    destruct (decide (Version a = 1)) as [Hver|]; [|eexists; by apply Hversion].
    destruct H as [?|H]; [done|].
    destruct (x509_ParseCertificate (Certificate vm)) as [cert|e'] eqn:Hcert;
      [|eexists; by apply Hparse].
    destruct H as [[? ?]|H]; [done|].
    destruct (TransparencyEntries vm) as [|entry0 rest] eqn:Hentries;
      [eexists; by eapply Hempty|].
    destruct H as [?|H]; [done|].
    destruct H as [(entry0' & e & [= <-] & Hentry)|H];
      [eexists; by eapply Hadapter|].
    destruct H as (cert' & entry0' & tlogEntry & e & [= <-] & [= <-] & Hentry & Hnew').
    exists e. by eapply Hnew.
Qed.

(** ** UnmarshalAttestation: the two blocks *)

Lemma update_VerificationMaterial_Some f a vm :
  VerificationMaterial a = Some vm →
  update_VerificationMaterial f a
  = Ok {| Version := Version a;
          VerificationMaterial := Some (f vm);
          Envelope := Envelope a |}.
Proof. intros H. unfold update_VerificationMaterial. by rewrite H. Qed.

Lemma update_Envelope_Some f a env :
  Envelope a = Some env →
  update_Envelope f a
  = Ok {| Version := Version a;
          VerificationMaterial := VerificationMaterial a;
          Envelope := Some (f env) |}.
Proof. intros H. unfold update_Envelope. by rewrite H. Qed.

Lemma update_VerificationMaterial_keeps f a :
  hasBlocks a → keepsBlocks (update_VerificationMaterial f a).
Proof.
  intros [[vm Hvm] Henv]. rewrite (update_VerificationMaterial_Some _ _ _ Hvm).
  split; simpl; eauto.
Qed.

Lemma update_Envelope_keeps f a :
  hasBlocks a → keepsBlocks (update_Envelope f a).
Proof.
  intros [Hvm [env Henv]]. rewrite (update_Envelope_Some _ _ _ Henv).
  split; simpl; eauto.
Qed.

Lemma bind_keeps (o : outcome pb_Attestation) k :
  keepsBlocks o → (∀ a, hasBlocks a → keepsBlocks (k a)) → keepsBlocks (o ≫= k).
Proof. destruct o; simpl; eauto. Qed.

Lemma wrap_bind_keeps {A} ctx (r : result A) k :
  (∀ x, keepsBlocks (k x)) → keepsBlocks (wrap ctx r ≫= k).
Proof. destruct r; simpl; eauto. Qed.

Lemma appendEntries_keeps entries : ∀ a,
  hasBlocks a → keepsBlocks (appendEntries entries a).
Proof.
  induction entries as [|entry entries IH]; intros a Ha; simpl; [done|].
  destruct entry; eauto.
  apply wrap_bind_keeps. intros s. apply bind_keeps; [|done].
  by apply update_VerificationMaterial_keeps.
Qed.

Lemma parseCertificate_keeps vm a :
  hasBlocks a → keepsBlocks (parseCertificate vm a).
Proof.
  intros Ha. unfold parseCertificate.
  destruct (vm !! "certificate") as [[]|]; try done.
  apply wrap_bind_keeps. intros cert. by apply update_VerificationMaterial_keeps.
Qed.

Lemma parseTransparencyEntries_keeps vm a :
  hasBlocks a → keepsBlocks (parseTransparencyEntries vm a).
Proof.
  intros Ha. unfold parseTransparencyEntries.
  destruct (vm !! "transparency_entries") as [[]|]; try done.
  by apply appendEntries_keeps.
Qed.

Lemma parseVerificationMaterial_keeps raw a :
  hasBlocks a → keepsBlocks (parseVerificationMaterial raw a).
Proof.
  intros Ha. unfold parseVerificationMaterial.
  destruct (raw !! "verification_material") as [[]|]; try done.
  apply bind_keeps; [by apply parseCertificate_keeps|].
  intros a' Ha'. by apply parseTransparencyEntries_keeps.
Qed.

Lemma parseStatement_keeps env a :
  hasBlocks a → keepsBlocks (parseStatement env a).
Proof.
  intros Ha. unfold parseStatement.
  destruct (env !! "statement") as [[]|]; try done.
  apply wrap_bind_keeps. intros stmt. by apply update_Envelope_keeps.
Qed.

Lemma parseSignature_keeps env a :
  hasBlocks a → keepsBlocks (parseSignature env a).
Proof.
  intros Ha. unfold parseSignature.
  destruct (env !! "signature") as [[]|]; try done.
  apply wrap_bind_keeps. intros sig. by apply update_Envelope_keeps.
Qed.

Lemma parseEnvelope_keeps raw a :
  hasBlocks a → keepsBlocks (parseEnvelope raw a).
Proof.
  intros Ha. unfold parseEnvelope.
  destruct (raw !! "envelope") as [[]|]; try done.
  apply bind_keeps; [by apply parseStatement_keeps|].
  intros a' Ha'. by apply parseSignature_keeps.
Qed.

Lemma parseVersion_keeps raw a : hasBlocks a → hasBlocks (parseVersion raw a).
Proof. unfold parseVersion. by destruct (raw !! "version") as [[]|]. Qed.

Lemma emptyAttestation_hasBlocks : hasBlocks emptyAttestation.
Proof. split; simpl; eauto. Qed.

Lemma attestationOfRaw_keeps raw : keepsBlocks (attestationOfRaw raw).
Proof.
  unfold attestationOfRaw.
  apply bind_keeps.
  { apply parseVerificationMaterial_keeps, parseVersion_keeps,
      emptyAttestation_hasBlocks. }
  intros a Ha. apply bind_keeps; [by apply parseEnvelope_keeps|done].
Qed.

Lemma UnmarshalAttestation_raw data raw :
  json_Unmarshal data = Value raw →
  UnmarshalAttestation data = attestationOfRaw raw.
Proof. intros H. unfold UnmarshalAttestation. by rewrite H. Qed.

Lemma UnmarshalAttestation_keeps data : keepsBlocks (UnmarshalAttestation data).
Proof.
  unfold UnmarshalAttestation. apply wrap_bind_keeps, attestationOfRaw_keeps.
Qed.

(** C9: an attestation returned by UnmarshalAttestation or by FromBundle has
    a non-nil verification material and a non-nil envelope, whatever the
    input had; and UnmarshalAttestation never panics. *)
Theorem constructed_attestation_has_blocks :
  (∀ data a, UnmarshalAttestation data = Ok a → hasBlocks a)
  ∧ (∀ b a, FromBundle b = Ok a → hasBlocks a)
  ∧ (∀ raw, raw !! "verification_material" = None → raw !! "envelope" = None →
       ∃ a, attestationOfRaw raw = Ok a ∧ hasBlocks a)
  ∧ (∀ data, UnmarshalAttestation data ≠ Panic).
Proof.
  repeat split.
  - pose proof (UnmarshalAttestation_keeps data) as Hk. rewrite H in Hk. apply Hk.
  - pose proof (UnmarshalAttestation_keeps data) as Hk. rewrite H in Hk. apply Hk.
  - destruct b as [b|]; [|done].
    destruct (FromBundle_Ok _ _ H) as (?&?&?&?&?&?&_&_&_&_&_&_&->). simpl. eauto.
  - destruct b as [b|]; [|done].
    destruct (FromBundle_Ok _ _ H) as (?&?&?&?&?&?&_&_&_&_&_&_&->). simpl. eauto.
  - intros raw Hvm Henv. unfold attestationOfRaw, parseVerificationMaterial, parseEnvelope.
    rewrite Hvm, Henv. simpl. eexists. split; [reflexivity|].
    apply parseVersion_keeps, emptyAttestation_hasBlocks.
  - intros data Hp. pose proof (UnmarshalAttestation_keeps data) as Hk.
    by rewrite Hp in Hk.
Qed.

(** ** UnmarshalAttestation: the version field and the entries array *)













(** What each step leaves alone. *)
Lemma update_Envelope_frame f a a' :
  update_Envelope f a = Ok a' →
  Version a' = Version a ∧ VerificationMaterial a' = VerificationMaterial a.
Proof.
  unfold update_Envelope. destruct (Envelope a); simpl; [|done]. by intros [= <-].
Qed.

Lemma parseStatement_frame env a a' :
  parseStatement env a = Ok a' →
  Version a' = Version a ∧ VerificationMaterial a' = VerificationMaterial a.
Proof.
  unfold parseStatement. destruct (env !! "statement") as [[]|]; try by intros [= <-].
  destruct (base64_DecodeString s); simpl; [|done]. apply update_Envelope_frame.
Qed.

Lemma parseSignature_frame env a a' :
  parseSignature env a = Ok a' →
  Version a' = Version a ∧ VerificationMaterial a' = VerificationMaterial a.
Proof.
  unfold parseSignature. destruct (env !! "signature") as [[]|]; try by intros [= <-].
  destruct (base64_DecodeString s); simpl; [|done]. apply update_Envelope_frame.
Qed.

Lemma parseEnvelope_frame raw a a' :
  parseEnvelope raw a = Ok a' →
  Version a' = Version a ∧ VerificationMaterial a' = VerificationMaterial a.
Proof.
  unfold parseEnvelope. destruct (raw !! "envelope") as [[]|]; try by intros [= <-].
  destruct (parseStatement m a) as [a1| |] eqn:H1; simpl; try done.
  intros H2. apply parseStatement_frame in H1 as [Hv1 Hm1].
  apply parseSignature_frame in H2 as [Hv2 Hm2]. by rewrite Hv2, Hm2.
Qed.

Lemma parseCertificate_frame vm a a' :
  parseCertificate vm a = Ok a' →
  Version a' = Version a ∧ entriesOf a' = entriesOf a ∧ Envelope a' = Envelope a.
Proof.
  unfold parseCertificate. destruct (vm !! "certificate") as [[]|]; try by intros [= <-].
  destruct (base64_DecodeString s); simpl; [|done].
  unfold update_VerificationMaterial, entriesOf.
  destruct (VerificationMaterial a); simpl; [|done]. by intros [= <-].
Qed.

Lemma appendEntries_frame entries : ∀ a a',
  appendEntries entries a = Ok a' →
  Version a' = Version a ∧ certificateOf a' = certificateOf a ∧ Envelope a' = Envelope a.
Proof.
  induction entries as [|entry entries IH]; intros a a'; simpl.
  { by intros [= <-]. }
  destruct entry; try apply IH.
  destruct (structpb_NewStruct m) as [s|]; simpl; [|done].
  unfold update_VerificationMaterial.
  destruct (VerificationMaterial a) as [vm|] eqn:Hvm; simpl; [|done].
  intros H. apply IH in H as (Hv & Hc & He). rewrite Hv, Hc, He.
  unfold certificateOf. simpl. by rewrite Hvm.
Qed.

Lemma bind_Ok {A} (o : outcome A) : o ≫= Ok = o.
Proof. by destruct o. Qed.

Lemma attestationOfRaw_steps raw :
  attestationOfRaw raw
  = parseVerificationMaterial raw (parseVersion raw emptyAttestation)
    ≫= parseEnvelope raw.
Proof.
  unfold attestationOfRaw.
  destruct (parseVerificationMaterial raw (parseVersion raw emptyAttestation));
    simpl; try done.
  apply bind_Ok.
Qed.





(** ** MarshalAttestation, then UnmarshalAttestation *)














(** ** ToBundle, then FromBundle *)

Lemma transparencyEntryToStruct_Ok t s :
  transparencyEntryToStruct t = Ok s →
  ∃ m, projection t = Value m ∧ structpb_NewStruct m = Value s.
Proof.
  unfold transparencyEntryToStruct, projection.
  destruct (protojson_Marshal_TransparencyLogEntry t) as [d|]; simpl; [|done].
  destruct (json_Unmarshal d) as [m|]; simpl; [|done].
  destruct (structpb_NewStruct m) as [s'|] eqn:Hs; simpl; [|done].
  intros [= <-]. by exists m.
Qed.

(** C1, as amended: for an attestation with both blocks, version 1, a
    certificate that parses, an entry 0 that converts in both directions and
    a bundle that bundle.NewBundle accepts, FromBundle(ToBundle(a)) succeeds
    and keeps the version, the certificate bytes, the statement and the
    signature; its only transparency entry is the converted entry 0, whatever
    the number of entries of a.  When structpb reads back the JSON projection
    of the typed record, that entry is JSON-equal to the original entry 0
    exactly when the original entry is, as JSON, the projection of the typed
    record the adapter made of it. *)
Theorem roundTrip_preserves a vm env cert entry0 rest tlogEntry flags entry0' :
  x509_raw_is_input →
  VerificationMaterial a = Some vm →
  Envelope a = Some env →
  Version a = 1 →
  x509_ParseCertificate (Certificate vm) = Value cert →
  TransparencyEntries vm = entry0 :: rest →
  transparencyEntryFromStruct entry0 = Ok tlogEntry →
  bundle_validate (assembleBundle cert env tlogEntry) = Value flags →
  transparencyEntryToStruct tlogEntry = Ok entry0' →
  roundTrip (Some a)
  = Ok {| Version := Version a;
          VerificationMaterial := Some
            {| Certificate := Certificate vm; TransparencyEntries := [entry0'] |};
          Envelope := Some env |}
  ∧ ((∀ m s, projection tlogEntry = Value m →
             structpb_NewStruct m = Value s →
             normalized s = Value m) →
     (json_equal entry0 entry0' ↔ normalized entry0 = projection tlogEntry)).
Proof.
  intros Hraw Hvm Henv Hver Hcert Hentries Hfrom Hvalid Hto. split.
  - unfold roundTrip.
    rewrite (ToBundle_reaches_NewBundle _ _ _ _ _ _ _ Hvm Henv Hver Hcert Hentries Hfrom).
    unfold bundle_NewBundle. rewrite Hvalid. destruct flags as [promise proof].
    unfold lift, wrap, mbind, outcome_bind. cbv beta iota.
    erewrite FromBundle_succeeds; try reflexivity.
    + simpl. rewrite (Hraw _ _ Hcert), Hver. by destruct env.
    + simpl. by repeat constructor.
  - intros Hstruct.
    destruct (transparencyEntryToStruct_Ok _ _ Hto) as (m & Hm & Hs).
    pose proof (Hstruct m entry0' Hm Hs) as Hback.
    split.
    + intros (m' & Horig & Hnew). rewrite Hback in Hnew.
      injection Hnew as <-. by rewrite Horig, Hm.
    + intros Hsame. exists m. by rewrite Hsame, Hm, Hback.
Qed.

End Properties.

(** * The reference base64 codec

    Decoding inverts encoding.  The facts about one group of bits are
    checked on every byte, or pair of bytes; the rest is induction on the
    input, three bytes at a time. *)

Module Base64.
Import Ref.












End Base64.

(** * The properties on the sample inputs *)




(** An equation between closed terms whose right-hand side is a value is
    settled by evaluating the left-hand side. *)
Ltac computed :=
  lazymatch goal with
  | |- _ = ?v => vm_cast_no_check (@eq_refl _ v)
  end.

Module Run.
Import Ref Sample.

(** C1 as stated fails: the attestation is valid in the sense of the claim
    (version 1, a certificate that parses, two transparency entries, both
    blocks present) and entry 0 is in the typed record's own JSON form, yet
    FromBundle(ToBundle(a)) does not succeed: bundle.NewBundle refuses the
    assembled bundle, whose only tlog entry has no canonicalized body, and
    ToBundle returns that error. *)
Lemma roundTrip_fails_on_a_valid_attestation :
  let a := attestation 1 [bare; bare] in
  Version a = 1
  ∧ hasBlocks a
  ∧ (∃ cert, x509_ParseCertificate der = Value cert)
  ∧ length <$> entriesOf a = Some 2%nat
  ∧ (∃ t, transparencyEntryFromStruct bare = Ok t
          ∧ transparencyEntryToStruct t = Ok bare)
  ∧ ∃ e, ToBundle (Some a) = Err e ∧ roundTrip (Some a) = Err e.
Proof.
  split; [reflexivity|].
  split; [split; eexists; reflexivity|].
  split; [exists {| raw := der |}; vm_compute; reflexivity|].
  split; [reflexivity|].
  split; [exists bare_entry; split; vm_compute; reflexivity|].
  exists "validation error: nil value". split; vm_compute; reflexivity.
Qed.

(** C2 as stated fails: every listed condition holds, entry 0 comes back from
    the adapter unchanged, and ToBundle returns the error of
    bundle.NewBundle; and with the same verification material and a nil
    envelope, ToBundle dereferences the nil pointer. *)
Lemma ToBundle_rejected_by_NewBundle :
  let a := attestation 1 [bare] in
  let headless :=
    {| Version := 1;
       VerificationMaterial := VerificationMaterial a;
       Envelope := None |} in
  Version a = 1
  ∧ (∃ cert, x509_ParseCertificate der = Value cert)
  ∧ (transparencyEntryFromStruct bare ≫= transparencyEntryToStruct) = Ok bare
  ∧ (∃ e, ToBundle (Some a) = Err e)
  ∧ ToBundle (Some headless) = Panic.
Proof.
  split; [reflexivity|]. split; [exists {| raw := der |}; computed|].
  split; [computed|].
  split; [exists "validation error: nil value"; computed|computed].
Qed.

(** C4 as stated fails: ToBundle returns an error although the attestation
    is not nil, its version is 1, its certificate parses, its entry list is
    not empty and entry 0 converts. *)
Lemma ToBundle_error_outside_the_list :
  let a := attestation 1 [unproved; proved] in
  (∃ e, ToBundle (Some a) = Err e)
  ∧ Version a = 1
  ∧ (∃ cert, x509_ParseCertificate der = Value cert)
  ∧ entriesOf a ≠ Some []
  ∧ (∃ t, transparencyEntryFromStruct unproved = Ok t).
Proof.
  split; [eexists; vm_compute; reflexivity|].
  split; [reflexivity|]. split; [eexists; vm_compute; reflexivity|]. split; [done|].
  eexists. vm_compute. reflexivity.
Qed.

(** C3 as stated fails: the bundle and its inner message are not nil, the
    certificate is extracted, the content is the DSSE variant, the envelope
    carries exactly one signature and every tlog entry converts (there is
    none); the one signature is a nil pointer, and FromBundle dereferences
    it. *)
Lemma FromBundle_nil_signature_panics :
  ∃ pbundle vm dsse,
    Bundle nil_signature = Some pbundle
    ∧ bundle_VerificationMaterial pbundle = Some vm
    ∧ extractCertificate (vm_Content vm) = Ok der
    ∧ Content pbundle = Bundle_DsseEnvelope (Some dsse)
    ∧ length (Signatures dsse) = 1%nat
    ∧ Forall2 (fun t s => transparencyEntryToStruct t = Ok s) (TlogEntries vm) []
    ∧ FromBundle (Some nil_signature) = Panic.
Proof.
  eexists _, _, _. split; [reflexivity|]. split; [reflexivity|].
  split; [reflexivity|]. split; [reflexivity|]. split; [reflexivity|].
  split; [constructor|reflexivity].
Qed.

(** C5 as stated fails: the verification material has the
    single-certificate variant, whose certificate is a nil pointer;
    FromBundle neither yields bytes nor returns an error, it dereferences
    the pointer. *)
Lemma FromBundle_nil_certificate_panics :
  ∃ pbundle vm,
    Bundle nil_certificate = Some pbundle
    ∧ bundle_VerificationMaterial pbundle = Some vm
    ∧ vm_Content vm = VerificationMaterial_Certificate None
    ∧ FromBundle (Some nil_certificate) = Panic
    ∧ ∀ msg, FromBundle (Some nil_certificate) ≠ Err msg.
Proof.
  eexists _, _. split; [reflexivity|]. split; [reflexivity|].
  split; [reflexivity|]. split; [reflexivity|]. intros msg. discriminate.
Qed.

(** The reference parser returns its input as the raw bytes. *)
Lemma x509_raw_is_input_holds : x509_raw_is_input.
Proof.
  intros input cert. simpl. unfold parse_certificate.
  destruct (check_certificate input); simpl; [|done]. by intros [= <-].
Qed.

(** The amended C2 on the sample attestation with one entry. *)
Lemma ToBundle_assembles_witness :
  ∃ b pbundle,
    ToBundle (Some one) = Ok b
    ∧ Bundle b = Some pbundle
    ∧ MediaType pbundle = "application/vnd.dev.sigstore.bundle.v0.3+json"
    ∧ bundle_VerificationMaterial pbundle = Some
        {| vm_Content := VerificationMaterial_Certificate (Some {| RawBytes := der |});
           TlogEntries := [proved_entry] |}
    ∧ Content pbundle = Bundle_DsseEnvelope (Some envelope).
Proof.
  refine (ToBundle_assembles one
            {| Certificate := der; TransparencyEntries := [proved] |}
            {| Statement := text "{}"; Signature := text "sig" |}
            {| raw := der |} proved [] proved_entry (false, true) _ _ _ _ _ _ _);
    vm_compute; reflexivity.
Defined.

(** The amended C1 on the sample attestation with two entries. *)
Lemma roundTrip_preserves_witness :
  roundTrip (Some two)
  = Ok {| Version := 1;
          VerificationMaterial := Some
            {| Certificate := der; TransparencyEntries := [rebuilt] |};
          Envelope := Some {| Statement := text "{}"; Signature := text "sig" |} |}
  ∧ json_equal proved rebuilt.
Proof.
  destruct (roundTrip_preserves two
              {| Certificate := der; TransparencyEntries := [proved; unproved] |}
              {| Statement := text "{}"; Signature := text "sig" |}
              {| raw := der |} proved [unproved] proved_entry (false, true) rebuilt
              x509_raw_is_input_holds eq_refl eq_refl eq_refl)
    as [Hrun Hequal]; [computed..|].
  split; [exact Hrun|]. apply Hequal.
  - intros m s Hm Hs.
    assert (E1 : projection proved_entry = Value proved_map) by computed.
    rewrite E1 in Hm. injection Hm as <-.
    assert (E2 : structpb_NewStruct proved_map = Value rebuilt) by computed.
    rewrite E2 in Hs. injection Hs as <-. computed.
  - computed.
Defined.

(** C3 on a sample bundle, and on the same bundle without content. *)
Lemma FromBundle_assembles_witness :
  FromBundle (Some signed)
  = Ok {| Version := 1;
          VerificationMaterial := Some
            {| Certificate := der; TransparencyEntries := [rebuilt] |};
          Envelope := Some {| Statement := text "{}"; Signature := text "sig" |} |}
  ∧ FromBundle (Some unsigned) = Err "bundle does not contain a DSSE envelope".
Proof.
  split.
  - refine (proj1 (FromBundle_assembles signed _ _ eq_refl eq_refl)
              der envelope {| Sig := text "sig"; Keyid := EmptyString |} [rebuilt]
              eq_refl eq_refl eq_refl _).
    constructor; [vm_compute; reflexivity|constructor].
  - refine (proj1 (proj2 (FromBundle_assembles unsigned _ _ eq_refl eq_refl))
              der eq_refl _).
    intros e. discriminate.
Defined.

(** C5 on a single certificate, and on an empty chain. *)
Lemma certificate_extraction_witness :
  extractCertificate certificate_of_der = Ok der
  ∧ FromBundle (Some emptyChain) = Err "no certificates in chain".
Proof.
  split.
  - refine (proj1 (proj1 (certificate_extraction signed _ _ eq_refl eq_refl)
                     {| RawBytes := der |} eq_refl)).
  - refine (proj1 (proj2 (proj2 (certificate_extraction emptyChain _ _
                                   eq_refl eq_refl)))
              {| Certificates := [] |} eq_refl eq_refl).
Defined.

(** The amended C4: version 999, and an entry outside the typed schema. *)
Lemma ToBundle_errors_witness :
  ToBundle (Some (attestation 999 [proved]))
  = Err "unsupported attestation version: 999"
  ∧ ToBundle (Some (attestation 1 [foreign]))
    = Err ("failed to convert transparency entry: "
           ++ "failed to unmarshal JSON to TransparencyLogEntry: "
           ++ "proto: unknown field " ++ quote "extra").
Proof.
  split.
  - refine (proj1 (proj2 ToBundle_errors) (attestation 999 [proved]) eq_refl).
  - refine (proj1 (proj2 (proj2 (proj2 (proj2 (proj2 (proj2 ToBundle_errors))
              (attestation 1 [foreign])
              {| Certificate := der; TransparencyEntries := [foreign] |}
              {| Statement := text "{}"; Signature := text "sig" |}
              eq_refl eq_refl))))
              {| raw := der |} foreign [] _ eq_refl _ eq_refl _);
      vm_compute; reflexivity.
Defined.

(** C9 on the empty JSON object. *)
Lemma constructed_attestation_has_blocks_witness : hasBlocks emptyAttestation.
Proof.
  refine (proj1 constructed_attestation_has_blocks (text "{}") emptyAttestation _).
  vm_compute. reflexivity.
Defined.

(** C10 on an attestation without blocks. *)
Lemma MarshalAttestation_dereferences_nil_witness :
  MarshalAttestation
    (Some {| Version := 1; VerificationMaterial := None; Envelope := None |})
  = Panic.
Proof.
  refine (proj1 (proj2 MarshalAttestation_dereferences_nil)
            {| Version := 1; VerificationMaterial := None; Envelope := None |} eq_refl).
Defined.




(** The adapter is a projection onto the typed schema: an index written as
    a JSON number comes back as a decimal string, which the JSON-normalized
    comparison tells apart. *)
Lemma number_comes_back_as_string :
  (transparencyEntryFromStruct unproved ≫= transparencyEntryToStruct)
  = Ok [("logIndex", JStr "7")]
  ∧ ¬ json_equal unproved [("logIndex", JStr "7")].
Proof.
  split; [vm_compute; reflexivity|].
  intros (m & Hm & Hm').
  assert (Hfield : ∀ s : Struct, normalized s = Value m →
            match normalized s with
            | Value raw => raw !! "logIndex"
            | Error _ => None
            end = m !! "logIndex") by (by intros s ->).
  pose proof (Hfield _ Hm) as H1. pose proof (Hfield _ Hm') as H2.
  vm_compute in H1, H2. rewrite <- H1 in H2. discriminate H2.
Qed.

End Run.

(** * Further properties of the converter *)

Section ToBundleMore.
Context `{LO : LibOps}.

Lemma lift_not_Panic {A} (r : result A) : lift r ≠ Panic.
Proof. by destruct r. Qed.

(** X1: the error of the adapter reaches the caller of ToBundle with the
    message of each layer in front: the conversion of entry 0, then the step
    of the adapter that failed, then the library's own error. *)
Theorem ToBundle_adapter_error_chain a vm env cert entry0 rest :
  VerificationMaterial a = Some vm →
  Envelope a = Some env →
  Version a = 1 →
  x509_ParseCertificate (Certificate vm) = Value cert →
  TransparencyEntries vm = entry0 :: rest →
  (∀ e, protojson_Marshal_Struct entry0 = Error e →
        ToBundle (Some a)
        = Err ("failed to convert transparency entry: "
               ++ "failed to marshal struct to JSON: " ++ e))
  ∧ (∀ jsonBytes e,
        protojson_Marshal_Struct entry0 = Value jsonBytes →
        protojson_Unmarshal_TransparencyLogEntry jsonBytes = Error e →
        ToBundle (Some a)
        = Err ("failed to convert transparency entry: "
               ++ "failed to unmarshal JSON to TransparencyLogEntry: " ++ e)).
Proof.
  intros Hvm Henv Hver Hcert Hentries.
  split; [intros e Hm|intros jsonBytes e Hm Hu];
    unfold ToBundle; rewrite Hver; simpl; rewrite Hvm; simpl;
    rewrite Hcert; simpl; rewrite Henv; simpl; rewrite Hentries;
    unfold transparencyEntryFromStruct; rewrite Hm; simpl; [done|].
  by rewrite Hu.
Qed.

(** X2: ToBundle reads the version, the certificate, the envelope and
    entry 0 only: two attestations that agree on these have the same
    outcome, whatever follows entry 0 in their lists. *)
Theorem ToBundle_reads_entry0_only a a' :
  Version a = Version a' →
  certificateOf a = certificateOf a' →
  Envelope a = Envelope a' →
  head <$> entriesOf a = head <$> entriesOf a' →
  ToBundle (Some a) = ToBundle (Some a').
Proof.
  unfold certificateOf, entriesOf, ToBundle. intros <- Hcert <- Hhead.
  destruct (Version a =? 1); simpl; [|done].
  destruct (VerificationMaterial a) as [vm|], (VerificationMaterial a') as [vm'|];
    simpl in *; try done.
  injection Hcert as <-. injection Hhead as Hhead.
  destruct (x509_ParseCertificate (Certificate vm)); simpl; [|done].
  destruct (Envelope a); simpl; [|done].
  destruct (TransparencyEntries vm), (TransparencyEntries vm'); simpl in *; try done.
  by injection Hhead as <-.
Qed.

(** X3: ToBundle dereferences a nil pointer exactly when the version is 1
    and either the verification material is nil, or the certificate parses
    and the envelope is nil; a nil envelope behind a certificate that does
    not parse is never reached. *)
Theorem ToBundle_panics_iff a :
  ToBundle (Some a) = Panic ↔
  Version a = 1
  ∧ (VerificationMaterial a = None
     ∨ ∃ vm cert, VerificationMaterial a = Some vm
                  ∧ x509_ParseCertificate (Certificate vm) = Value cert
                  ∧ Envelope a = None).
Proof.
  unfold ToBundle.
  destruct (Z.eqb_spec (Version a) 1) as [Hver|Hver]; simpl;
    [|split; [done|by intros [? _]]].
  destruct (VerificationMaterial a) as [vm|]; simpl; [|split; [auto|done]].
  destruct (x509_ParseCertificate (Certificate vm)) as [cert|e] eqn:Hcert; simpl.
  2: { split; [done|]. intros [_ [|(? & ? & [= <-] & Hc & _)]]; [done|].
       rewrite Hcert in Hc. done. }
  destruct (Envelope a) as [env|]; simpl.
  2: { split; [|done]. intros _. split; [done|]. right. by exists vm, cert. }
  split; [|by intros [_ [|(? & ? & _ & _ & ?)]]].
  destruct (TransparencyEntries vm) as [|entry0 rest]; [done|].
  pose proof (transparencyEntryFromStruct_not_Panic entry0) as Hn.
  destruct (transparencyEntryFromStruct entry0) as [t| |]; simpl; [|done|done].
  intros Hp. by destruct (lift_not_Panic _ Hp).
Qed.

(** X4: ToBundle succeeds exactly when the attestation has both blocks and
    version 1, the certificate parses, there is an entry 0 and it converts,
    and the validation of the assembled message passes; the bundle it
    returns is then that message with the flags of the validation. *)
Theorem ToBundle_succeeds_iff attestation b :
  ToBundle attestation = Ok b ↔
  ∃ a vm env cert entry0 rest tlogEntry promise proof,
    attestation = Some a
    ∧ Version a = 1
    ∧ VerificationMaterial a = Some vm
    ∧ Envelope a = Some env
    ∧ x509_ParseCertificate (Certificate vm) = Value cert
    ∧ TransparencyEntries vm = entry0 :: rest
    ∧ transparencyEntryFromStruct entry0 = Ok tlogEntry
    ∧ bundle_validate (assembleBundle cert env tlogEntry) = Value (promise, proof)
    ∧ b = {| Bundle := Some (assembleBundle cert env tlogEntry);
             hasInclusionPromise := promise;
             hasInclusionProof := proof |}.
Proof.
  split.
  - destruct attestation as [a|]; [|done]. unfold ToBundle.
    destruct (Z.eqb_spec (Version a) 1) as [Hver|Hver]; simpl; [|done].
    destruct (VerificationMaterial a) as [vm|] eqn:Hvm; simpl; [|done].
    destruct (x509_ParseCertificate (Certificate vm)) as [cert|e] eqn:Hcert;
      simpl; [|done].
    destruct (Envelope a) as [env|] eqn:Henv; simpl; [|done].
    destruct (TransparencyEntries vm) as [|entry0 rest] eqn:Hentries; [done|].
    destruct (transparencyEntryFromStruct entry0) as [t| |] eqn:Ht; simpl;
      [|done|done].
    unfold bundle_NewBundle.
    destruct (bundle_validate (assembleBundle cert env t)) as [[promise proof]|e]
      eqn:Hvalid; [|done].
    intros [= <-]. by exists a, vm, env, cert, entry0, rest, t, promise, proof.
  - intros (a & vm & env & cert & entry0 & rest & t & promise & proof
            & -> & Hver & Hvm & Henv & Hcert & Hentries & Ht & Hvalid & ->).
    rewrite (ToBundle_reaches_NewBundle _ _ _ _ _ _ _ Hvm Henv Hver Hcert Hentries Ht).
    unfold bundle_NewBundle. by rewrite Hvalid.
Qed.

End ToBundleMore.

Section FromBundleMore.
Context `{LO : LibOps}.

Lemma convertEntries_not_Panic entries : ∀ i, convertEntries i entries ≠ Panic.
Proof.
  induction entries as [|t entries IH]; intros i; simpl; [done|].
  pose proof (transparencyEntryToStruct_not_Panic t) as Ht.
  destruct (transparencyEntryToStruct t); simpl; [|done|done].
  specialize (IH (S i)). by destruct (convertEntries (S i) entries).
Qed.

Lemma append_assoc (s1 s2 s3 : string) : (s1 ++ s2) ++ s3 = s1 ++ s2 ++ s3.
Proof.
  induction s1 as [|c s1 IH]; [reflexivity|].
  change (String c ((s1 ++ s2) ++ s3) = String c (s1 ++ s2 ++ s3)). by rewrite IH.
Qed.

Lemma convertEntries_first_failure pre : ∀ i structs t post e,
  Forall2 (fun t s => transparencyEntryToStruct t = Ok s) pre structs →
  transparencyEntryToStruct t = Err e →
  convertEntries i (pre ++ t :: post)%list
  = Err ("failed to convert transparency entry "
         ++ fmt_d (Z.of_nat (i + length pre)) ++ ": " ++ e).
Proof.
  induction pre as [|p pre IH]; intros i structs t post e Hpre Ht; simpl.
  { rewrite Ht. simpl. by rewrite Nat.add_0_r, !append_assoc. }
  inversion Hpre as [|? s ? structs' Hp Hrest]; subst.
  rewrite Hp. simpl. rewrite (IH _ _ _ _ _ Hrest Ht). simpl.
  by rewrite Nat.add_succ_r.
Qed.

(** X5: the first tlog entry that does not convert stops FromBundle, and
    the error names its index; the three steps of the adapter each put their
    own message behind it.  The signature itself is not looked at before. *)
Theorem FromBundle_first_failing_entry b pbundle vm certBytes dsse sg
    (pre : list TransparencyLogEntry) structs entry post :
  Bundle b = Some pbundle →
  bundle_VerificationMaterial pbundle = Some vm →
  extractCertificate (vm_Content vm) = Ok certBytes →
  Content pbundle = Bundle_DsseEnvelope (Some dsse) →
  Signatures dsse = [sg] →
  TlogEntries vm = (pre ++ entry :: post)%list →
  Forall2 (fun t s => transparencyEntryToStruct t = Ok s) pre structs →
  let failure e :=
    FromBundle (Some b)
    = Err ("failed to convert transparency entry "
           ++ fmt_d (Z.of_nat (length pre)) ++ ": " ++ e) in
  (∀ e, protojson_Marshal_TransparencyLogEntry entry = Error e →
        failure ("failed to marshal transparency entry to JSON: " ++ e))
  ∧ (∀ jsonBytes e,
        protojson_Marshal_TransparencyLogEntry entry = Value jsonBytes →
        json_Unmarshal jsonBytes = Error e →
        failure ("failed to unmarshal JSON to map: " ++ e))
  ∧ (∀ jsonBytes m e,
        protojson_Marshal_TransparencyLogEntry entry = Value jsonBytes →
        json_Unmarshal jsonBytes = Value m →
        structpb_NewStruct m = Error e →
        failure ("failed to create structpb.Struct: " ++ e)).
Proof.
  intros Hb Hvm Hcert Hcontent Hsig Hentries Hpre failure.
  assert (Hfail : ∀ e, transparencyEntryToStruct entry = Err e → failure e).
  { intros e He. unfold failure, FromBundle. simpl. rewrite Hb, Hvm. simpl.
    rewrite Hcert. simpl. rewrite Hcontent. simpl. rewrite Hsig. simpl.
    rewrite Hentries, (convertEntries_first_failure _ 0 _ _ _ _ Hpre He). done. }
  split; [|split].
  - intros e Hm. apply Hfail. unfold transparencyEntryToStruct. by rewrite Hm.
  - intros jsonBytes e Hm Hu. apply Hfail. unfold transparencyEntryToStruct.
    rewrite Hm. simpl. by rewrite Hu.
  - intros jsonBytes m e Hm Hu Hs. apply Hfail. unfold transparencyEntryToStruct.
    rewrite Hm. simpl. rewrite Hu. simpl. by rewrite Hs.
Qed.

(** X6: FromBundle succeeds exactly when the bundle and its inner message are
    not nil, the certificate is extracted, the content is a DSSE envelope
    with exactly one signature, and every tlog entry converts; the result is
    then the attestation assembled from these. *)
Theorem FromBundle_succeeds_iff b a :
  FromBundle b = Ok a ↔
  ∃ b0 pbundle vm certBytes dsse sig0 structs,
    b = Some b0
    ∧ Bundle b0 = Some pbundle
    ∧ bundle_VerificationMaterial pbundle = Some vm
    ∧ extractCertificate (vm_Content vm) = Ok certBytes
    ∧ Content pbundle = Bundle_DsseEnvelope (Some dsse)
    ∧ Signatures dsse = [Some sig0]
    ∧ Forall2 (fun t s => transparencyEntryToStruct t = Ok s) (TlogEntries vm) structs
    ∧ a = {| Version := 1;
             VerificationMaterial := Some
               {| Certificate := certBytes; TransparencyEntries := structs |};
             Envelope := Some
               {| Statement := Payload dsse; Signature := Sig sig0 |} |}.
Proof.
  split.
  - destruct b as [b0|]; [|done]. intros Ha.
    destruct (FromBundle_Ok _ _ Ha)
      as (pb & vm & bs & dsse & sig0 & structs & ? & ? & ? & ? & ? & Hconv & ->).
    exists b0, pb, vm, bs, dsse, sig0, structs. repeat split; try done.
    by eapply convertEntries_Ok.
  - intros (b0 & pb & vm & bs & dsse & sig0 & structs
            & -> & ? & ? & ? & ? & ? & ? & ->).
    by eapply FromBundle_succeeds.
Qed.

Lemma extractCertificate_panics content :
  extractCertificate content = Panic ↔
  content = VerificationMaterial_Certificate None
  ∨ content = VerificationMaterial_X509CertificateChain None
  ∨ ∃ rest, content = VerificationMaterial_X509CertificateChain
                        (Some {| Certificates := None :: rest |}).
Proof.
  split.
  - destruct content as [| |[[[|[c0|] rest]]|]|[c|]]; simpl; try done; eauto.
  - intros [->|[->|[rest ->]]]; done.
Qed.

(** X7: FromBundle dereferences a nil pointer exactly in these cases: the
    verification material is nil; the certificate, the chain or the first
    certificate of the chain is nil; the DSSE envelope is nil; or the single
    signature is nil and every entry has converted. *)
Theorem FromBundle_panics_iff b :
  FromBundle (Some b) = Panic ↔
  ∃ pbundle,
    Bundle b = Some pbundle
    ∧ (bundle_VerificationMaterial pbundle = None
       ∨ ∃ vm, bundle_VerificationMaterial pbundle = Some vm
          ∧ (vm_Content vm = VerificationMaterial_Certificate None
             ∨ vm_Content vm = VerificationMaterial_X509CertificateChain None
             ∨ (∃ rest, vm_Content vm = VerificationMaterial_X509CertificateChain
                                          (Some {| Certificates := None :: rest |}))
             ∨ ∃ certBytes, extractCertificate (vm_Content vm) = Ok certBytes
                ∧ (Content pbundle = Bundle_DsseEnvelope None
                   ∨ ∃ dsse structs,
                       Content pbundle = Bundle_DsseEnvelope (Some dsse)
                       ∧ Signatures dsse = [None]
                       ∧ Forall2 (fun t s => transparencyEntryToStruct t = Ok s)
                                 (TlogEntries vm) structs))).
Proof.
  unfold FromBundle. simpl.
  destruct (Bundle b) as [pbundle|]; [|split; [done|by intros (? & ? & _)]].
  destruct (bundle_VerificationMaterial pbundle) as [vm|] eqn:Hvm; simpl.
  2: { split; [|done]. intros _. exists pbundle. split; [done|]. by left. }
  split.
  - intros Hp. exists pbundle. split; [done|]. right. exists vm. split; [done|].
    destruct (extractCertificate (vm_Content vm)) as [certBytes| |] eqn:Hcert;
      simpl in Hp; [|done|].
    2: { apply extractCertificate_panics in Hcert as [?|[?|?]]; auto. }
    do 3 right. exists certBytes. split; [done|].
    destruct (Content pbundle) as [| |[dsse|]]; simpl in Hp; try done; [|by left].
    right.
    destruct (Signatures dsse) as [|sg [|sg' sigs]] eqn:Hsigs; simpl in Hp; try done.
    pose proof (convertEntries_not_Panic (TlogEntries vm) 0) as Hn.
    destruct (convertEntries 0 (TlogEntries vm)) as [structs| |] eqn:Hconv;
      simpl in Hp; try done.
    destruct sg as [sig0|]; simpl in Hp; [done|].
    exists dsse, structs. repeat split; try done. by eapply convertEntries_Ok.
  - intros (? & [= <-] & [Hnone|(vm' & Hvm' & Hcase)]); [congruence|].
    assert (vm' = vm) as -> by congruence.
    destruct Hcase as [Hc|[Hc|[[rest Hc]|(certBytes & Hcert & Hcase)]]];
      try (by rewrite Hc).
    rewrite Hcert. simpl.
    destruct Hcase as [->|(dsse & structs & -> & Hsig & Hall)]; [done|].
    simpl. rewrite Hsig. simpl. by rewrite (convertEntries_Forall2 _ _ Hall).
Qed.

(** X8: FromBundle reads the extracted certificate, the tlog entries, the
    payload and the signature bytes, and nothing else: the media type, the
    payload type, the key ids and the two flags do not matter, and a chain
    is read as its first certificate. *)
Theorem FromBundle_reads_only mediaType mediaType' vm vm' payload
    payloadType payloadType' sigs sigs' promise promise' proof proof' :
  extractCertificate (vm_Content vm) = extractCertificate (vm_Content vm') →
  TlogEntries vm = TlogEntries vm' →
  Forall2 (fun sg sg' => Sig <$> sg = Sig <$> sg') sigs sigs' →
  FromBundle (Some
    {| Bundle := Some
         {| MediaType := mediaType;
            bundle_VerificationMaterial := Some vm;
            Content := Bundle_DsseEnvelope (Some
              {| Payload := payload; PayloadType := payloadType;
                 Signatures := sigs |}) |};
       hasInclusionPromise := promise; hasInclusionProof := proof |})
  = FromBundle (Some
    {| Bundle := Some
         {| MediaType := mediaType';
            bundle_VerificationMaterial := Some vm';
            Content := Bundle_DsseEnvelope (Some
              {| Payload := payload; PayloadType := payloadType';
                 Signatures := sigs' |}) |};
       hasInclusionPromise := promise'; hasInclusionProof := proof' |})
  ∧ ∀ c0 rest,
      extractCertificate (VerificationMaterial_X509CertificateChain
                            (Some {| Certificates := c0 :: rest |}))
      = extractCertificate (VerificationMaterial_Certificate c0).
Proof.
  intros Hcert Hentries Hsigs. split; [|done].
  unfold FromBundle. simpl. rewrite Hcert, Hentries.
  destruct (extractCertificate (vm_Content vm')); simpl; try done.
  rewrite (Forall2_length _ _ _ Hsigs).
  destruct (length sigs' =? 1)%nat; simpl; [|done].
  destruct (convertEntries 0 (TlogEntries vm')); simpl; try done.
  destruct Hsigs as [|sg sg' ? ? Hsg _]; simpl; [done|].
  destruct sg, sg'; simpl in *; try done. by injection Hsg as ->.
Qed.

(** X9: after a successful ToBundle, FromBundle passes every structural
    check: it either returns an attestation with version 1 and one
    transparency entry, or fails on converting entry 0 back; it does not
    panic. *)
Theorem FromBundle_after_ToBundle attestation b :
  ToBundle attestation = Ok b →
  (∃ a' entry, FromBundle (Some b) = Ok a'
               ∧ Version a' = 1
               ∧ entriesOf a' = Some [entry])
  ∨ (∃ e, FromBundle (Some b)
          = Err ("failed to convert transparency entry 0: " ++ e)).
Proof.
  destruct attestation as [a|]; [|done]. unfold ToBundle.
  destruct (Version a =? 1); simpl; [|done].
  destruct (VerificationMaterial a) as [vm|]; simpl; [|done].
  destruct (x509_ParseCertificate (Certificate vm)) as [cert|]; simpl; [|done].
  destruct (Envelope a) as [env|]; simpl; [|done].
  destruct (TransparencyEntries vm) as [|entry0 rest]; [done|].
  destruct (transparencyEntryFromStruct entry0) as [t| |]; simpl; [|done|done].
  unfold bundle_NewBundle.
  destruct (bundle_validate (assembleBundle cert env t)) as [[promise proof]|];
    [|done].
  intros [= <-]. unfold FromBundle. simpl.
  pose proof (transparencyEntryToStruct_not_Panic t) as Hn.
  destruct (transparencyEntryToStruct t) as [s|e|]; simpl; [| |done].
  - left. by eexists _, s.
  - right. by exists e.
Qed.

(** X19: FromBundle does not parse the certificate and accepts a bundle
    without tlog entries; ToBundle does neither.  On the attestation that
    FromBundle returns, ToBundle passes the nil and version checks and then
    fails with the parse error when the extracted bytes are not a
    certificate, and with the missing-entries error when the bundle had
    none. *)
Theorem ToBundle_after_FromBundle b pbundle vm a :
  Bundle b = Some pbundle →
  bundle_VerificationMaterial pbundle = Some vm →
  FromBundle (Some b) = Ok a →
  ∃ certBytes,
    extractCertificate (vm_Content vm) = Ok certBytes
    ∧ (∀ e, x509_ParseCertificate certBytes = Error e →
            ToBundle (Some a) = Err ("failed to parse certificate: " ++ e))
    ∧ (∀ cert, x509_ParseCertificate certBytes = Value cert →
               TlogEntries vm = [] →
               ToBundle (Some a) = Err "no transparency entries found").
Proof.
  intros Hb Hvm Ha.
  destruct (FromBundle_Ok _ _ Ha)
    as (pb' & vm' & certBytes & dsse & sig0 & structs
        & Hb' & Hvm' & Hcert & _ & _ & Hconv & ->).
  assert (pb' = pbundle) as -> by congruence.
  assert (vm' = vm) as -> by congruence.
  exists certBytes. split; [done|]. split.
  - intros e He. unfold ToBundle. simpl. by rewrite He.
  - intros cert Hc Hnil. rewrite Hnil in Hconv. injection Hconv as <-.
    unfold ToBundle. simpl. by rewrite Hc.
Qed.

End FromBundleMore.

Section BundleJSON.
Context `{LO : LibOps}.

(** X10: UnmarshalBundle wraps the error of the JSON decoder and passes on
    the error of the validation unchanged; it never panics; and a bundle it
    returns, like a bundle ToBundle returns, carries its inner message, so
    that MarshalBundle goes on to the encoder. *)
Theorem package_bundles_carry_message :
  (∀ data e,
     protojson_Unmarshal_Bundle data = Error e →
     UnmarshalBundle data = Err ("failed to unmarshal bundle JSON: " ++ e))
  ∧ (∀ data pbundle e,
     protojson_Unmarshal_Bundle data = Value pbundle →
     bundle_validate pbundle = Error e →
     UnmarshalBundle data = Err e)
  ∧ (∀ data, UnmarshalBundle data ≠ Panic)
  ∧ (∀ data b,
     UnmarshalBundle data = Ok b →
     ∃ pbundle, protojson_Unmarshal_Bundle data = Value pbundle
                ∧ Bundle b = Some pbundle
                ∧ MarshalBundle (Some b)
                  = lift (protojson_MarshalIndent_Bundle pbundle))
  ∧ (∀ attestation b,
     ToBundle attestation = Ok b →
     ∃ pbundle, Bundle b = Some pbundle
                ∧ MarshalBundle (Some b)
                  = lift (protojson_MarshalIndent_Bundle pbundle)).
Proof.
  assert (Hnew : ∀ pbundle b, lift (bundle_NewBundle pbundle) = Ok b →
                              Bundle b = Some pbundle).
  { intros pbundle b. unfold bundle_NewBundle.
    destruct (bundle_validate pbundle) as [[promise proof]|]; [|done].
    by intros [= <-]. }
  split; [|split; [|split; [|split]]].
  - intros data e H. unfold UnmarshalBundle. by rewrite H.
  - intros data pbundle e H Hv. unfold UnmarshalBundle, bundle_NewBundle.
    rewrite H. simpl. by rewrite Hv.
  - intros data. unfold UnmarshalBundle.
    destruct (protojson_Unmarshal_Bundle data) as [pbundle|]; simpl; [|done].
    by destruct (bundle_NewBundle pbundle).
  - intros data b. unfold UnmarshalBundle.
    destruct (protojson_Unmarshal_Bundle data) as [pbundle|]; simpl; [|done].
    intros Hb%Hnew. exists pbundle. unfold MarshalBundle. simpl. by rewrite Hb.
  - intros [a|] b; [|done]. unfold ToBundle.
    destruct (Version a =? 1); simpl; [|done].
    destruct (VerificationMaterial a) as [vm|]; simpl; [|done].
    destruct (x509_ParseCertificate (Certificate vm)) as [cert|]; simpl; [|done].
    destruct (Envelope a) as [env|]; simpl; [|done].
    destruct (TransparencyEntries vm) as [|entry0 rest]; [done|].
    destruct (transparencyEntryFromStruct entry0) as [t| |]; simpl; [|done|done].
    intros Hb%Hnew. eexists. unfold MarshalBundle. simpl. by rewrite Hb.
Qed.

(** A bundle of this package is the validated form of its inner message. *)
Lemma package_bundle_is_validated b :
  (∃ attestation, ToBundle attestation = Ok b)
  ∨ (∃ data, UnmarshalBundle data = Ok b) →
  ∃ pbundle, Bundle b = Some pbundle ∧ bundle_NewBundle pbundle = Value b.
Proof.
  assert (Hnew : ∀ pbundle, lift (bundle_NewBundle pbundle) = Ok b →
                            Bundle b = Some pbundle
                            ∧ bundle_NewBundle pbundle = Value b).
  { intros pbundle Hb%lift_Ok. split; [|done]. unfold bundle_NewBundle in Hb.
    destruct (bundle_validate pbundle) as [[promise proof]|]; [|done].
    by injection Hb as <-. }
  intros [[[a|] H]|[data H]].
  - unfold ToBundle in H.
    destruct (Version a =? 1); simpl in H; [|done].
    destruct (VerificationMaterial a) as [vm|]; simpl in H; [|done].
    destruct (x509_ParseCertificate (Certificate vm)) as [cert|]; simpl in H; [|done].
    destruct (Envelope a) as [env|]; simpl in H; [|done].
    destruct (TransparencyEntries vm) as [|entry0 rest]; [done|].
    destruct (transparencyEntryFromStruct entry0) as [t| |]; simpl in H; [|done|done].
    eexists. by apply Hnew.
  - done.
  - unfold UnmarshalBundle in H.
    destruct (protojson_Unmarshal_Bundle data) as [pbundle|]; simpl in H; [|done].
    eexists. by apply Hnew.
Qed.

(** X11: a bundle that ToBundle or UnmarshalBundle has returned comes back
    from UnmarshalBundle(MarshalBundle(b)) unchanged, the two flags of the
    validation included, when protojson reads the text that MarshalBundle
    wrote back as the inner message of the bundle; MarshalBundle writes
    exactly that message. *)
Theorem bundle_json_round_trip b data :
  (∃ attestation, ToBundle attestation = Ok b)
  ∨ (∃ data0, UnmarshalBundle data0 = Ok b) →
  MarshalBundle (Some b) = Ok data →
  (∀ pbundle,
     Bundle b = Some pbundle →
     protojson_MarshalIndent_Bundle pbundle = Value data →
     protojson_Unmarshal_Bundle data = Value pbundle) →
  UnmarshalBundle data = Ok b
  ∧ ∃ pbundle, Bundle b = Some pbundle
               ∧ protojson_MarshalIndent_Bundle pbundle = Value data.
Proof.
  intros Hpackage Hwrite Hread.
  destruct (package_bundle_is_validated b Hpackage) as (pbundle & Hb & Hnew).
  unfold MarshalBundle in Hwrite. simpl in Hwrite. rewrite Hb in Hwrite.
  apply lift_Ok in Hwrite.
  split; [|by exists pbundle].
  unfold UnmarshalBundle. rewrite (Hread pbundle Hb Hwrite). simpl.
  by apply lift_Ok.
Qed.

End BundleJSON.

Section UnmarshalMore.
Context `{LO : LibOps}.

Abbreviation iface := (any float64 Struct).

Lemma update_VerificationMaterial_not_Err f a msg :
  update_VerificationMaterial f a ≠ Err msg.
Proof. unfold update_VerificationMaterial. by destruct (VerificationMaterial a). Qed.

Lemma update_Envelope_not_Err f a msg : update_Envelope f a ≠ Err msg.
Proof. unfold update_Envelope. by destruct (Envelope a). Qed.

Lemma appendEntries_Err entries : ∀ a msg,
  appendEntries entries a = Err msg →
  ∃ entryMap e,
    AMap entryMap ∈ entries
    ∧ structpb_NewStruct entryMap = Error e
    ∧ msg = "failed to create transparency entry struct: " ++ e.
Proof.
  induction entries as [|entry entries IH]; intros a msg; simpl; [done|].
  assert (Hrest : ∀ a', appendEntries entries a' = Err msg →
            ∃ entryMap e,
              AMap entryMap ∈ entry :: entries
              ∧ structpb_NewStruct entryMap = Error e
              ∧ msg = "failed to create transparency entry struct: " ++ e).
  { intros a' (entryMap & e & Hin & He & ->)%IH.
    exists entryMap, e. split; [by apply elem_of_cons; right|done]. }
  destruct entry as [| | | | |entryMap| |]; try apply Hrest.
  destruct (structpb_NewStruct entryMap) as [s|e] eqn:Hs; simpl.
  - pose proof (update_VerificationMaterial_not_Err (append_TransparencyEntry s) a) as Hn.
    destruct (update_VerificationMaterial (append_TransparencyEntry s) a);
      simpl; [apply Hrest| |done].
    intros [= <-]. by destruct (Hn msg0).
  - intros [= <-]. exists entryMap, e. split; [by apply elem_of_cons; left|done].
Qed.

Lemma parseVerificationMaterial_Err raw a msg :
  parseVerificationMaterial raw a = Err msg →
  (∃ vm certStr e,
     raw !! "verification_material" = Some (AMap vm)
     ∧ vm !! "certificate" = Some (AString certStr)
     ∧ base64_DecodeString certStr = Error e
     ∧ msg = "failed to decode certificate: " ++ e)
  ∨ (∃ vm entries entryMap e,
     raw !! "verification_material" = Some (AMap vm)
     ∧ vm !! "transparency_entries" = Some (ASlice entries)
     ∧ AMap entryMap ∈ entries
     ∧ structpb_NewStruct entryMap = Error e
     ∧ msg = "failed to create transparency entry struct: " ++ e).
Proof.
  unfold parseVerificationMaterial.
  destruct (raw !! "verification_material") as [[| | | | |vm| |]|] eqn:Hvm; try done.
  assert (Hentries : ∀ a, parseTransparencyEntries vm a = Err msg →
            ∃ entries entryMap e,
              vm !! "transparency_entries" = Some (ASlice entries)
              ∧ AMap entryMap ∈ entries
              ∧ structpb_NewStruct entryMap = Error e
              ∧ msg = "failed to create transparency entry struct: " ++ e).
  { intros a0. unfold parseTransparencyEntries.
    destruct (vm !! "transparency_entries") as [[| | | |entries| | |]|]; try done.
    intros (entryMap & e & Hin & He & ->)%appendEntries_Err.
    by exists entries, entryMap, e. }
  assert (Hright : ∀ a, parseTransparencyEntries vm a = Err msg →
            (∃ vm0 certStr e,
               Some (AMap vm) = Some (AMap vm0)
               ∧ vm0 !! "certificate" = Some (AString certStr)
               ∧ base64_DecodeString certStr = Error e
               ∧ msg = "failed to decode certificate: " ++ e)
            ∨ (∃ vm0 entries entryMap e,
               Some (AMap vm) = Some (AMap vm0)
               ∧ vm0 !! "transparency_entries" = Some (ASlice entries)
               ∧ AMap entryMap ∈ entries
               ∧ structpb_NewStruct entryMap = Error e
               ∧ msg = "failed to create transparency entry struct: " ++ e)).
  { intros a0 (entries & entryMap & e & H1 & H2 & H3 & H4)%Hentries.
    right. by exists vm, entries, entryMap, e. }
  unfold parseCertificate.
  destruct (vm !! "certificate") as [[| | |certStr| | | |]|] eqn:Hcert;
    simpl; try apply Hright.
  destruct (base64_DecodeString certStr) as [cert|e] eqn:Hdec; simpl.
  - pose proof (update_VerificationMaterial_not_Err (set_Certificate cert) a) as Hn.
    destruct (update_VerificationMaterial (set_Certificate cert) a);
      simpl; [apply Hright| |done].
    intros [= <-]. by destruct (Hn msg0).
  - intros [= <-]. left. by exists vm, certStr, e.
Qed.

Lemma parseEnvelope_Err raw a msg :
  parseEnvelope raw a = Err msg →
  (∃ env stmtStr e,
     raw !! "envelope" = Some (AMap env)
     ∧ env !! "statement" = Some (AString stmtStr)
     ∧ base64_DecodeString stmtStr = Error e
     ∧ msg = "failed to decode statement: " ++ e)
  ∨ (∃ env sigStr e,
     raw !! "envelope" = Some (AMap env)
     ∧ env !! "signature" = Some (AString sigStr)
     ∧ base64_DecodeString sigStr = Error e
     ∧ msg = "failed to decode signature: " ++ e).
Proof.
  unfold parseEnvelope.
  destruct (raw !! "envelope") as [[| | | | |env| |]|] eqn:Henv; try done.
  assert (Hsig : ∀ a, parseSignature env a = Err msg →
            (∃ env0 stmtStr e,
               Some (AMap env) = Some (AMap env0)
               ∧ env0 !! "statement" = Some (AString stmtStr)
               ∧ base64_DecodeString stmtStr = Error e
               ∧ msg = "failed to decode statement: " ++ e)
            ∨ (∃ env0 sigStr e,
               Some (AMap env) = Some (AMap env0)
               ∧ env0 !! "signature" = Some (AString sigStr)
               ∧ base64_DecodeString sigStr = Error e
               ∧ msg = "failed to decode signature: " ++ e)).
  { intros a0. unfold parseSignature.
    destruct (env !! "signature") as [[| | |sigStr| | | |]|] eqn:Hsig; try done.
    destruct (base64_DecodeString sigStr) as [sig|e] eqn:Hdec; simpl.
    - intros H. by destruct (update_Envelope_not_Err _ _ _ H).
    - intros [= <-]. right. by exists env, sigStr, e. }
  unfold parseStatement.
  destruct (env !! "statement") as [[| | |stmtStr| | | |]|] eqn:Hstmt;
    simpl; try apply Hsig.
  destruct (base64_DecodeString stmtStr) as [stmt|e] eqn:Hdec; simpl.
  - pose proof (update_Envelope_not_Err (set_Statement stmt) a) as Hn.
    destruct (update_Envelope (set_Statement stmt) a); simpl; [apply Hsig| |done].
    intros [= <-]. by destruct (Hn msg0).
  - intros [= <-]. left. by exists env, stmtStr, e.
Qed.

(** X12: every error of UnmarshalAttestation has its cause in the input:
    the text did not parse as JSON; or a certificate, statement or signature
    that is present as a string is not base64; or an object of the entries
    array was refused by structpb.  The message is the one of that step,
    followed by the library's error.  A missing field, or a field of another
    JSON type, is therefore never the cause of an error; and the decoder
    does not panic. *)
Theorem UnmarshalAttestation_error_sources data :
  (∀ msg, UnmarshalAttestation data = Err msg → decodeFailure data msg)
  ∧ UnmarshalAttestation data ≠ Panic.
Proof.
  split.
  - intros msg. unfold UnmarshalAttestation, decodeFailure.
    destruct (json_Unmarshal data) as [raw|e]; simpl.
    2: { intros [= <-]. left. by exists e. }
    rewrite attestationOfRaw_steps. intros H. right. exists raw. split; [done|].
    destruct (parseVerificationMaterial raw (parseVersion raw emptyAttestation))
      as [a1|msg1|] eqn:H1; simpl in H; [| |done].
    + apply parseEnvelope_Err in H as [H|H]; auto.
    + injection H as <-. apply parseVerificationMaterial_Err in H1 as [H1|H1]; auto.
  - pose proof (UnmarshalAttestation_keeps data) as H. intros Hp.
    by rewrite Hp in H.
Qed.


(** What each field parser writes. *)
Lemma parseCertificate_Ok vm a a' c0 :
  parseCertificate vm a = Ok a' →
  certificateOf a = Some c0 →
  ∃ c, certificateOf a' = Some c
       ∧ match vm !! "certificate" with
         | Some (AString certStr) => base64_DecodeString certStr = Value c
         | _ => c = c0
         end.
Proof.
  unfold parseCertificate, certificateOf.
  destruct (vm !! "certificate") as [[]|]; try (intros [= <-]; by eauto).
  destruct (base64_DecodeString s) as [cert|]; simpl; [|done].
  unfold update_VerificationMaterial.
  destruct (VerificationMaterial a); simpl; [|done].
  intros [= <-] _. by exists cert.
Qed.

Lemma parseStatement_Ok env a a' s0 :
  parseStatement env a = Ok a' →
  statementOf a = Some s0 →
  signatureOf a' = signatureOf a
  ∧ ∃ stmt, statementOf a' = Some stmt
       ∧ match env !! "statement" with
         | Some (AString stmtStr) => base64_DecodeString stmtStr = Value stmt
         | _ => stmt = s0
         end.
Proof.
  unfold parseStatement, statementOf, signatureOf.
  destruct (env !! "statement") as [[]|]; try (intros [= <-]; by eauto).
  destruct (base64_DecodeString s) as [stmt|]; simpl; [|done].
  unfold update_Envelope.
  destruct (Envelope a); simpl; [|done].
  intros [= <-] _. split; [done|]. by exists stmt.
Qed.

Lemma parseSignature_Ok env a a' s0 :
  parseSignature env a = Ok a' →
  signatureOf a = Some s0 →
  statementOf a' = statementOf a
  ∧ ∃ sig, signatureOf a' = Some sig
       ∧ match env !! "signature" with
         | Some (AString sigStr) => base64_DecodeString sigStr = Value sig
         | _ => sig = s0
         end.
Proof.
  unfold parseSignature, statementOf, signatureOf.
  destruct (env !! "signature") as [[]|]; try (intros [= <-]; by eauto).
  destruct (base64_DecodeString s) as [sig|]; simpl; [|done].
  unfold update_Envelope.
  destruct (Envelope a); simpl; [|done].
  intros [= <-] _. split; [done|]. by exists sig.
Qed.

Lemma parseVersion_fields raw a :
  Version (parseVersion raw a)
  = match raw !! "version" with
    | Some (AFloat64 v) => uint32_of_float64 v
    | _ => Version a
    end
  ∧ VerificationMaterial (parseVersion raw a) = VerificationMaterial a
  ∧ Envelope (parseVersion raw a) = Envelope a.
Proof. unfold parseVersion. by destruct (raw !! "version") as [[]|]. Qed.

Lemma parseTransparencyEntries_frame vm a a' :
  parseTransparencyEntries vm a = Ok a' →
  Version a' = Version a ∧ certificateOf a' = certificateOf a
  ∧ Envelope a' = Envelope a.
Proof.
  unfold parseTransparencyEntries.
  destruct (vm !! "transparency_entries") as [[]|]; try by intros [= <-].
  apply appendEntries_frame.
Qed.

(** X13: on success every field of the attestation is what the JSON object
    gives for it: the version is the number under [version], read as a
    uint32, and 0 when there is no number there; the certificate, statement
    and signature are the base64 decodings of the strings under their keys,
    and empty when the block or the string is missing or of another type. *)
Theorem UnmarshalAttestation_fields data raw a :
  json_Unmarshal data = Value raw →
  UnmarshalAttestation data = Ok a →
  Version a = match raw !! "version" with
              | Some (AFloat64 v) => uint32_of_float64 v
              | _ => 0
              end
  ∧ (∃ cert, certificateOf a = Some cert
       ∧ match raw !! "verification_material" with
         | Some (AMap vm) =>
             match vm !! "certificate" with
             | Some (AString certStr) => base64_DecodeString certStr = Value cert
             | _ => cert = []
             end
         | _ => cert = []
         end)
  ∧ (∃ stmt, statementOf a = Some stmt
       ∧ match raw !! "envelope" with
         | Some (AMap env) =>
             match env !! "statement" with
             | Some (AString stmtStr) => base64_DecodeString stmtStr = Value stmt
             | _ => stmt = []
             end
         | _ => stmt = []
         end)
  ∧ (∃ sig, signatureOf a = Some sig
       ∧ match raw !! "envelope" with
         | Some (AMap env) =>
             match env !! "signature" with
             | Some (AString sigStr) => base64_DecodeString sigStr = Value sig
             | _ => sig = []
             end
         | _ => sig = []
         end).
Proof.
  intros Hraw. rewrite (UnmarshalAttestation_raw _ _ Hraw), attestationOfRaw_steps.
  destruct (parseVersion_fields raw emptyAttestation) as (Hv0 & Hm0 & He0).
  set (a0 := parseVersion raw emptyAttestation) in *.
  destruct (parseVerificationMaterial raw a0) as [a1| |] eqn:H1; simpl; try done.
  intros H2.
  (* the verification material *)
  assert (Version a1 = Version a0 ∧ Envelope a1 = Envelope a0
          ∧ ∃ cert, certificateOf a1 = Some cert
              ∧ match raw !! "verification_material" with
                | Some (AMap vm) =>
                    match vm !! "certificate" with
                    | Some (AString certStr) =>
                        base64_DecodeString certStr = Value cert
                    | _ => cert = []
                    end
                | _ => cert = []
                end) as (Hv1 & He1 & cert & Hc1 & Hcert).
  { assert (Hc0 : certificateOf a0 = Some []).
    { unfold certificateOf. by rewrite Hm0. }
    unfold parseVerificationMaterial in H1.
    destruct (raw !! "verification_material") as [[| | | | |vm| |]|];
      try (injection H1 as <-; by eauto).
    destruct (parseCertificate vm a0) as [a'| |] eqn:Hpc; simpl in H1; try done.
    destruct (parseCertificate_frame _ _ _ Hpc) as (Hva & _ & Hea).
    destruct (parseCertificate_Ok _ _ _ _ Hpc Hc0) as (c & Hc & Hmatch).
    destruct (parseTransparencyEntries_frame _ _ _ H1) as (Hvb & Hcb & Heb).
    split; [congruence|]. split; [congruence|].
    exists c. split; [congruence|done]. }
  (* the envelope *)
  destruct (parseEnvelope_frame _ _ _ H2) as [Hv2 Hm2].
  split; [by rewrite Hv2, Hv1, Hv0|].
  split. { exists cert. split; [|done]. unfold certificateOf in *. by rewrite Hm2. }
  assert (Hs1 : statementOf a1 = Some []).
  { unfold statementOf. by rewrite He1, He0. }
  assert (Hg1 : signatureOf a1 = Some []).
  { unfold signatureOf. by rewrite He1, He0. }
  unfold parseEnvelope in H2.
  destruct (raw !! "envelope") as [[| | | | |env| |]|];
    try (injection H2 as <-; split; by exists []).
  destruct (parseStatement env a1) as [a'| |] eqn:Hps; simpl in H2; try done.
  destruct (parseStatement_Ok _ _ _ _ Hps Hs1) as (Hga & stmt & Hsa & Hstmt).
  rewrite Hg1 in Hga.
  destruct (parseSignature_Ok _ _ _ _ H2 Hga) as (Hsb & sig & Hgb & Hsig).
  split; [exists stmt|exists sig]; split; try done. congruence.
Qed.

Lemma appendEntries_Ok entries : ∀ a a' l0,
  appendEntries entries a = Ok a' →
  entriesOf a = Some l0 →
  ∃ structs,
    entriesOf a' = Some (l0 ++ structs)%list
    ∧ Forall2 (fun entry s => ∃ m, entry = AMap m ∧ structpb_NewStruct m = Value s)
              (List.filter is_object entries) structs.
Proof.
  induction entries as [|entry entries IH]; intros a a' l0; simpl.
  { intros [= <-] H0. exists []. rewrite app_nil_r. split; [done|constructor]. }
  destruct entry; try apply IH.
  destruct (structpb_NewStruct m) as [s|] eqn:Hs; simpl; [|done].
  unfold update_VerificationMaterial, entriesOf.
  destruct (VerificationMaterial a) as [vm|]; simpl; [|done].
  intros Hrest [= <-].
  destruct (IH _ _ (TransparencyEntries vm ++ [s])%list Hrest eq_refl)
    as (structs & Hentries & Hall).
  exists (s :: structs). rewrite <- app_assoc in Hentries. split; [done|].
  constructor; [by exists m|done].
Qed.

(** X14: on success the transparency entries are the objects of the
    [transparency_entries] array, in their order, each passed through
    structpb.NewStruct; without such an array there are none. *)
Theorem UnmarshalAttestation_entries data raw a :
  json_Unmarshal data = Value raw →
  UnmarshalAttestation data = Ok a →
  ∃ structs,
    entriesOf a = Some structs
    ∧ Forall2 (fun entry s => ∃ m, entry = AMap m ∧ structpb_NewStruct m = Value s)
        (List.filter is_object
           match raw !! "verification_material" with
           | Some (AMap vm) =>
               match vm !! "transparency_entries" with
               | Some (ASlice entries) => entries
               | _ => []
               end
           | _ => []
           end)
        structs.
Proof.
  intros Hraw. rewrite (UnmarshalAttestation_raw _ _ Hraw), attestationOfRaw_steps.
  destruct (parseVersion_fields raw emptyAttestation) as (_ & Hm0 & _).
  set (a0 := parseVersion raw emptyAttestation) in *.
  assert (H0 : entriesOf a0 = Some []) by (unfold entriesOf; by rewrite Hm0).
  destruct (parseVerificationMaterial raw a0) as [a1| |] eqn:H1; simpl; try done.
  intros H2. destruct (parseEnvelope_frame _ _ _ H2) as [_ Hm2].
  unfold entriesOf at 1. rewrite Hm2. fold (entriesOf a1).
  unfold parseVerificationMaterial in H1.
  destruct (raw !! "verification_material") as [[| | | | |vm| |]|];
    try (injection H1 as <-; exists []; split; [done|constructor]).
  destruct (parseCertificate vm a0) as [a'| |] eqn:Hpc; simpl in H1; try done.
  destruct (parseCertificate_frame _ _ _ Hpc) as (_ & Hea & _).
  rewrite H0 in Hea. unfold parseTransparencyEntries in H1.
  destruct (vm !! "transparency_entries") as [[| | | |entries| | |]|];
    try (injection H1 as <-; exists []; split; [done|constructor]).
  destruct (appendEntries_Ok _ _ _ _ H1 Hea) as (structs & ? & ?). by exists structs.
Qed.

(** X15: an attestation that this package has built, by UnmarshalAttestation
    or by FromBundle, has what ToBundle and MarshalAttestation dereference:
    neither of them panics on it. *)
Theorem package_attestations_are_safe a :
  (∃ data, UnmarshalAttestation data = Ok a) ∨ (∃ b, FromBundle b = Ok a) →
  ToBundle (Some a) ≠ Panic ∧ MarshalAttestation (Some a) ≠ Panic.
Proof.
  intros Hbuilt.
  assert (hasBlocks a) as [[vm Hvm] [env Henv]].
  { destruct Hbuilt as [[data Ha]|[[b|] Ha]]; [| |done].
    - pose proof (UnmarshalAttestation_keeps data) as Hk. by rewrite Ha in Hk.
    - destruct (FromBundle_Ok _ _ Ha) as (?&?&?&?&?&?&_&_&_&_&_&_&->).
      split; simpl; eauto. }
  split.
  - unfold ToBundle. destruct (Version a =? 1); simpl; [|done].
    rewrite Hvm. simpl.
    destruct (x509_ParseCertificate (Certificate vm)); simpl; [|done].
    rewrite Henv. simpl.
    destruct (TransparencyEntries vm) as [|entry0 rest]; [done|].
    pose proof (transparencyEntryFromStruct_not_Panic entry0) as Hn.
    destruct (transparencyEntryFromStruct entry0); simpl; [|done|done].
    by destruct (bundle_NewBundle _).
  - unfold MarshalAttestation. simpl. rewrite Hvm, Henv. simpl.
    by destruct (json_MarshalIndent _).
Qed.

(** X16: an object in which [version] is not a number and
    [verification_material] and [envelope] are not objects, the empty object
    among them, decodes to the empty attestation: version 0, no bytes, no
    entries. *)
Theorem UnmarshalAttestation_nothing_recognised data raw :
  json_Unmarshal data = Value raw →
  (∀ v, raw !! "version" ≠ Some (AFloat64 v)) →
  (∀ m, raw !! "verification_material" ≠ Some (AMap m)) →
  (∀ m, raw !! "envelope" ≠ Some (AMap m)) →
  UnmarshalAttestation data = Ok emptyAttestation.
Proof.
  intros Hraw Hver Hvm Henv.
  rewrite (UnmarshalAttestation_raw _ _ Hraw).
  unfold attestationOfRaw, parseVersion, parseVerificationMaterial, parseEnvelope.
  destruct (raw !! "version") as [[| |v| | | | |]|]; try (by destruct (Hver v));
    destruct (raw !! "verification_material") as [[| | | | |m1| |]|];
    try (by destruct (Hvm m1));
    destruct (raw !! "envelope") as [[| | | | |m2| |]|];
    try (by destruct (Henv m2)); done.
Qed.

(** X17: decoding accepts a document without a version number, converting
    does not: the attestation decoded from it has version 0 and ToBundle
    answers with the version error. *)
Theorem ToBundle_after_versionless_decode data raw a :
  json_Unmarshal data = Value raw →
  (∀ v, raw !! "version" ≠ Some (AFloat64 v)) →
  UnmarshalAttestation data = Ok a →
  ToBundle (Some a) = Err "unsupported attestation version: 0".
Proof.
  intros Hraw Hver. rewrite (UnmarshalAttestation_raw _ _ Hraw), attestationOfRaw_steps.
  destruct (parseVersion_fields raw emptyAttestation) as (Hv0 & _).
  destruct (parseVerificationMaterial raw (parseVersion raw emptyAttestation))
    as [a1| |] eqn:H1; simpl; try done.
  intros H2. destruct (parseEnvelope_frame _ _ _ H2) as [Hv2 _].
  assert (Hv1 : Version a1 = Version (parseVersion raw emptyAttestation)).
  { unfold parseVerificationMaterial in H1.
    destruct (raw !! "verification_material") as [[| | | | |vm| |]|];
      try (by injection H1 as <-).
    destruct (parseCertificate vm _) as [a'| |] eqn:Hpc; simpl in H1; try done.
    destruct (parseCertificate_frame _ _ _ Hpc) as (Hva & _).
    destruct (parseTransparencyEntries_frame _ _ _ H1) as (Hvb & _). congruence. }
  assert (Version a = 0) as Hzero.
  { rewrite Hv2, Hv1, Hv0.
    destruct (raw !! "version") as [[| |v| | | | |]|]; try done. by destruct (Hver v). }
  unfold ToBundle. by rewrite Hzero.
Qed.


(** X18: UnmarshalAttestation looks up seven keys and no other: a member
    under any other name, in the document, in the verification material or
    in the envelope, changes nothing in the outcome. *)
Theorem UnmarshalAttestation_ignores_other_keys data data' raw k v :
  json_Unmarshal data = Value raw →
  (k ≠ "version" → k ≠ "verification_material" → k ≠ "envelope" →
   json_Unmarshal data' = Value (<[k := v]> raw) →
   UnmarshalAttestation data' = UnmarshalAttestation data)
  ∧ (∀ vm, k ≠ "certificate" → k ≠ "transparency_entries" →
     raw !! "verification_material" = Some (AMap vm) →
     json_Unmarshal data'
     = Value (<["verification_material" := AMap (<[k := v]> vm)]> raw) →
     UnmarshalAttestation data' = UnmarshalAttestation data)
  ∧ (∀ env, k ≠ "statement" → k ≠ "signature" →
     raw !! "envelope" = Some (AMap env) →
     json_Unmarshal data' = Value (<["envelope" := AMap (<[k := v]> env)]> raw) →
     UnmarshalAttestation data' = UnmarshalAttestation data).
Proof.
  intros Hraw. split; [|split].
  - intros H1 H2 H3 Hraw'.
    rewrite (UnmarshalAttestation_raw _ _ Hraw), (UnmarshalAttestation_raw _ _ Hraw').
    unfold attestationOfRaw, parseVersion, parseVerificationMaterial, parseEnvelope.
    by rewrite !lookup_insert_ne.
  - intros vm H1 H2 Hvm Hraw'.
    rewrite (UnmarshalAttestation_raw _ _ Hraw), (UnmarshalAttestation_raw _ _ Hraw').
    unfold attestationOfRaw, parseVersion, parseVerificationMaterial, parseEnvelope.
    rewrite lookup_insert_eq, !lookup_insert_ne, Hvm by done.
    unfold parseCertificate, parseTransparencyEntries.
    by rewrite !lookup_insert_ne.
  - intros env H1 H2 Henv Hraw'.
    rewrite (UnmarshalAttestation_raw _ _ Hraw), (UnmarshalAttestation_raw _ _ Hraw').
    unfold attestationOfRaw, parseVersion, parseVerificationMaterial, parseEnvelope.
    rewrite lookup_insert_eq, !lookup_insert_ne, Henv by done.
    unfold parseStatement, parseSignature.
    by rewrite !lookup_insert_ne.
Qed.

End UnmarshalMore.

(** * The further properties on the sample inputs *)

Module RunMore.
Import Ref Sample.

(** X1 on the entry with a member outside the typed schema. *)
Lemma ToBundle_adapter_error_chain_witness :
  ToBundle (Some (attestation 1 [foreign]))
  = Err ("failed to convert transparency entry: "
         ++ "failed to unmarshal JSON to TransparencyLogEntry: "
         ++ "proto: unknown field " ++ quote "extra").
Proof.
  refine (proj2 (ToBundle_adapter_error_chain (attestation 1 [foreign])
                   {| Certificate := der; TransparencyEntries := [foreign] |}
                   {| Statement := text "{}"; Signature := text "sig" |}
                   {| raw := der |} foreign [] eq_refl eq_refl eq_refl _ eq_refl)
            (text (print false 0 (JObj foreign))) _ _ _);
    vm_compute; reflexivity.
Defined.

(** X2 on the samples with two entries and with one. *)
Lemma ToBundle_reads_entry0_only_witness : ToBundle (Some two) = ToBundle (Some one).
Proof.
  exact (ToBundle_reads_entry0_only two one eq_refl eq_refl eq_refl eq_refl).
Defined.

(** X3 on an attestation with version 1 and no verification material. *)
Lemma ToBundle_panics_iff_witness :
  ToBundle (Some {| Version := 1; VerificationMaterial := None; Envelope := None |})
  = Panic.
Proof.
  refine (proj2 (ToBundle_panics_iff _) _). split; [reflexivity|]. by left.
Defined.

(** X4 on the sample attestation with one entry. *)
Lemma ToBundle_succeeds_iff_witness : ToBundle (Some one) = Ok signed.
Proof.
  refine (proj2 (ToBundle_succeeds_iff (Some one) signed) _).
  exists one, {| Certificate := der; TransparencyEntries := [proved] |},
    {| Statement := text "{}"; Signature := text "sig" |}, {| raw := der |},
    proved, [], proved_entry, false, true.
  repeat split; vm_compute; reflexivity.
Defined.

(** X5 with an entry whose kind is not valid UTF-8: the second entry,
    index 1, stops the conversion. *)
Lemma FromBundle_first_failing_entry_witness :
  FromBundle
    (Some (bundleOf certificate_of_der [proved_entry; garbled_entry]
                    (Bundle_DsseEnvelope (Some envelope))))
  = Err ("failed to convert transparency entry 1: "
         ++ "failed to marshal transparency entry to JSON: "
         ++ "proto: string field contains invalid UTF-8").
Proof.
  refine (proj1 (FromBundle_first_failing_entry
                   (bundleOf certificate_of_der [proved_entry; garbled_entry]
                             (Bundle_DsseEnvelope (Some envelope)))
                   _ _ der envelope _ [proved_entry] [rebuilt] garbled_entry []
                   eq_refl eq_refl eq_refl eq_refl eq_refl eq_refl _)
            "proto: string field contains invalid UTF-8" _).
  - constructor; [computed|constructor].
  - computed.
Defined.

(** X6 on the sample bundle. *)
Lemma FromBundle_succeeds_iff_witness :
  FromBundle (Some signed)
  = Ok {| Version := 1;
          VerificationMaterial := Some
            {| Certificate := der; TransparencyEntries := [rebuilt] |};
          Envelope := Some {| Statement := text "{}"; Signature := text "sig" |} |}.
Proof.
  refine (proj2 (FromBundle_succeeds_iff (Some signed) _) _).
  eexists signed, _, _, der, envelope, {| Sig := text "sig"; Keyid := EmptyString |},
    [rebuilt].
  repeat split. constructor; [vm_compute; reflexivity|constructor].
Defined.

(** X7 on the bundle without verification material. *)
Lemma FromBundle_panics_iff_witness : FromBundle (Some hollow) = Panic.
Proof.
  refine (proj2 (FromBundle_panics_iff hollow) _).
  eexists. split; [reflexivity|]. by left.
Defined.

(** X8 on the chained bundle against the sample bundle. *)
Lemma FromBundle_reads_only_witness : FromBundle (Some chained) = FromBundle (Some signed).
Proof.
  refine (proj1 (FromBundle_reads_only _ _
                   {| vm_Content := VerificationMaterial_X509CertificateChain
                        (Some {| Certificates := [Some {| RawBytes := der |}; None] |});
                      TlogEntries := [proved_entry] |}
                   {| vm_Content := certificate_of_der; TlogEntries := [proved_entry] |}
                   (text "{}") _ _
                   [Some {| Sig := text "sig"; Keyid := "key-1" |}]
                   [Some {| Sig := text "sig"; Keyid := EmptyString |}]
                   _ _ _ _ eq_refl eq_refl _)).
  repeat constructor.
Defined.

(** X9 on the sample attestation and the bundle ToBundle makes of it. *)
Lemma FromBundle_after_ToBundle_witness :
  (∃ a' entry, FromBundle (Some signed) = Ok a'
               ∧ Version a' = 1
               ∧ entriesOf a' = Some [entry])
  ∨ (∃ e, FromBundle (Some signed)
          = Err ("failed to convert transparency entry 0: " ++ e)).
Proof.
  refine (FromBundle_after_ToBundle (Some one) signed _). vm_compute. reflexivity.
Defined.

(** X19 on the bundle without tlog entries, and on the same bundle with
    bytes that are not a certificate. *)
Lemma ToBundle_after_FromBundle_witness :
  (∃ a, FromBundle (Some plain) = Ok a
        ∧ ToBundle (Some a) = Err "no transparency entries found")
  ∧ (∃ a, FromBundle (Some uncertified) = Ok a
          ∧ ToBundle (Some a)
            = Err ("failed to parse certificate: "
                   ++ "x509: malformed tbs certificate")).
Proof.
  split.
  - eexists. split; [reflexivity|].
    destruct (ToBundle_after_FromBundle plain _ _ _ eq_refl eq_refl eq_refl)
      as (certBytes & Hcert & _ & Hempty).
    injection Hcert as <-. refine (Hempty {| raw := der |} _ eq_refl). computed.
  - eexists. split; [reflexivity|].
    destruct (ToBundle_after_FromBundle uncertified _ _ _ eq_refl eq_refl eq_refl)
      as (certBytes & Hcert & Hparse & _).
    injection Hcert as <-. refine (Hparse "x509: malformed tbs certificate" _).
    computed.
Defined.

(** X10 on text that is not JSON. *)
Lemma package_bundles_carry_message_witness :
  UnmarshalBundle (text "not valid json")
  = Err ("failed to unmarshal bundle JSON: "
         ++ "invalid character looking for beginning of value").
Proof.
  refine (proj1 package_bundles_carry_message (text "not valid json") _ _).
  vm_compute. reflexivity.
Defined.

(** X11 on the bundle without tlog entries, read from its JSON text. *)
Lemma bundle_json_round_trip_witness :
  UnmarshalBundle plain_text = Ok plain.
Proof.
  refine (proj1 (bundle_json_round_trip plain plain_text _ _ _)).
  - right. exists plain_text. computed.
  - computed.
  - intros pbundle Hb _. injection Hb as <-. computed.
Defined.

(** X12 on a certificate that is not base64. *)
Lemma UnmarshalAttestation_error_sources_witness :
  decodeFailure bad_certificate
    ("failed to decode certificate: " ++ "illegal base64 data").
Proof.
  refine (proj1 (UnmarshalAttestation_error_sources bad_certificate) _ _).
  computed.
Defined.

(** X13 on the JSON text of the sample attestation. *)
Lemma UnmarshalAttestation_fields_witness :
  Version (attestation_of encoded) = 1
  ∧ certificateOf (attestation_of encoded) = Some der
  ∧ statementOf (attestation_of encoded) = Some (text "{}")
  ∧ signatureOf (attestation_of encoded) = Some (text "sig").
Proof.
  destruct (@UnmarshalAttestation_fields types ops encoded decoded
              (attestation_of encoded))
    as (Hversion & _); [vm_compute; reflexivity..|].
  split; [|vm_compute; by repeat split].
  rewrite Hversion. vm_compute. reflexivity.
Defined.

(** X14 on the same text: one object, one entry. *)
Lemma UnmarshalAttestation_entries_witness :
  ∃ structs, entriesOf (attestation_of encoded) = Some structs
             ∧ length structs = 1%nat.
Proof.
  destruct (@UnmarshalAttestation_entries types ops encoded decoded
              (attestation_of encoded))
    as (structs & Hentries & Hall); [vm_compute; reflexivity..|].
  exists structs. split; [done|].
  apply Forall2_length in Hall. rewrite <- Hall. vm_compute. reflexivity.
Defined.

(** X15 on the attestation decoded from the sample text. *)
Lemma package_attestations_are_safe_witness :
  ToBundle (Some (attestation_of encoded)) ≠ Panic
  ∧ MarshalAttestation (Some (attestation_of encoded)) ≠ Panic.
Proof.
  refine (package_attestations_are_safe (attestation_of encoded) _).
  left. exists encoded. vm_compute. reflexivity.
Defined.

(** X16 on the empty JSON object. *)
Lemma UnmarshalAttestation_nothing_recognised_witness :
  UnmarshalAttestation (text "{}") = Ok emptyAttestation.
Proof.
  refine (UnmarshalAttestation_nothing_recognised (text "{}") ∅ _ _ _ _);
    [vm_compute; reflexivity|..]; intros x; by rewrite lookup_empty.
Defined.

(** X17 on the document that has entries and no version. *)
Lemma ToBundle_after_versionless_decode_witness :
  ToBundle (Some (attestation_of no_objects))
  = Err "unsupported attestation version: 0".
Proof.
  refine (ToBundle_after_versionless_decode no_objects (object_of no_objects) _ _ _ _).
  - vm_compute. reflexivity.
  - intros v Hv. vm_compute in Hv. discriminate Hv.
  - vm_compute. reflexivity.
Defined.

(** X18 on the empty object and the object with one foreign member. *)
Lemma UnmarshalAttestation_ignores_other_keys_witness :
  UnmarshalAttestation with_extra = UnmarshalAttestation (text "{}").
Proof.
  refine (proj1 (UnmarshalAttestation_ignores_other_keys (text "{}") with_extra ∅
                   "extra" (AFloat64 1) _) _ _ _ _);
    try discriminate; vm_compute; reflexivity.
Defined.

End RunMore.
